(** * Annotation overlays: textbox layer and scribble layer

    A shallow embedding of [src/TextboxOverlay.tsx] and
    [src/ScribbleOverlay.tsx].  Each React component is modelled as a record
    holding its [useState] cells, its [useRef] cells and the props it owns
    through a setter; every event handler of the component is a function from
    the state of the latest render to the next state.  A listener that an
    effect registered on the window belongs to the render in which that
    effect last ran: where the values it closed over can differ from the
    latest ones, the record holds them as well.  The JSX tree is modelled by
    the dispatch functions: an event aimed at an element that the current
    render does not contain cannot happen.

    Numbers.  Pointer coordinates, scroll offsets, canvas sizes and clock
    readings are whole numbers in this model ([Z]); on such values the
    arithmetic of the source ([+], [-], [*]) is exact. *)

From Stdlib Require Import ZArith Lia Bool.
From stdpp Require Import base list strings pretty.

(** ** Events shared by both components *)

Record MouseEvent := mkMouse { clientX : Z; clientY : Z }.

Record KeyboardEvent := mkKey { code : string; key : string; shiftKey : bool }.

(** * TextboxOverlay.tsx *)

Module TextboxOverlay.

(** [interface Textbox] *)
Record Textbox := mkTextbox {
  id : string;
  x : Z;
  y : Z;
  text : string;
  isEditing : bool
}.

(** The object kept in [dragState]: [{ id, startX, startY }]. *)
Record Drag := mkDrag { dragId : string; startX : Z; startY : Z }.

(** What a placement click reads from its surroundings: [window.scrollX],
    [window.scrollY] and [Date.now()]. *)
Record Window := mkWindow { scrollX : Z; scrollY : Z; now : Z }.

(** Props owned through setters ([textboxes], [isTextboxMode]), the
    [dragState] cell, the [isTabPressed] variable of the key bindings, and
    the [textboxes] that the window listeners of the drag effect closed
    over: the effect depends on [dragState] alone (lines 97-106), so its
    listeners keep the list of the render in which [dragState] last
    changed. *)
Record State := mkState {
  textboxes : list Textbox;
  isTextboxMode : bool;
  dragState : option Drag;
  isTabPressed : bool;
  listenerTextboxes : list Textbox
}.

(** Object spreads [{ ...tb, field: v }]. *)
Definition with_pos (tb : Textbox) (x' y' : Z) : Textbox :=
  mkTextbox (id tb) x' y' (text tb) (isEditing tb).

Definition with_text (tb : Textbox) (t : string) : Textbox :=
  mkTextbox (id tb) (x tb) (y tb) t (isEditing tb).

Definition with_isEditing (tb : Textbox) (b : bool) : Textbox :=
  mkTextbox (id tb) (x tb) (y tb) (text tb) b.

Definition set_textboxes (st : State) (tbs : list Textbox) : State :=
  mkState tbs (isTextboxMode st) (dragState st) (isTabPressed st)
    (listenerTextboxes st).

Definition set_isTextboxMode (st : State) (b : bool) : State :=
  mkState (textboxes st) b (dragState st) (isTabPressed st)
    (listenerTextboxes st).

Definition set_dragState (st : State) (d : option Drag) : State :=
  mkState (textboxes st) (isTextboxMode st) d (isTabPressed st)
    (listenerTextboxes st).

Definition set_isTabPressed (st : State) (b : bool) : State :=
  mkState (textboxes st) (isTextboxMode st) (dragState st) b
    (listenerTextboxes st).

Definition set_listenerTextboxes (st : State) (tbs : list Textbox) : State :=
  mkState (textboxes st) (isTextboxMode st) (dragState st) (isTabPressed st)
    tbs.

(** *** Key bindings (lines 28-64) *)

Definition handleKeyDown (e : KeyboardEvent) (st : State) : State :=
  if String.eqb (code e) "Tab" then set_isTabPressed st true
  else
    let st1 :=
      if isTabPressed st && String.eqb (code e) "KeyT"
      then set_isTextboxMode st (negb (isTextboxMode st))
      else st in
    if (String.eqb (key e) "Escape" || String.eqb (code e) "Escape")
         && isTextboxMode st
    then set_isTextboxMode st1 false
    else st1.

Definition handleKeyUp (e : KeyboardEvent) (st : State) : State :=
  if String.eqb (code e) "Tab" then set_isTabPressed st false else st.

(** The key-binding effect depends on [isTextboxMode]: when the flag changes
    the effect runs again and its closure starts from
    [let isTabPressed = false]. *)
Definition rebind_keys (prev : State) (st : State) : State :=
  if Bool.eqb (isTextboxMode prev) (isTextboxMode st) then st
  else set_isTabPressed st false.

(** *** Dragging (lines 67-94).  [st] is the render the closure belongs
    to. *)

Definition handleMouseMove (e : MouseEvent) (st : State) : State :=
  match dragState st with
  | None => st
  | Some d =>
      let dx := (clientX e - startX d)%Z in
      let dy := (clientY e - startY d)%Z in
      mkState
        ((fun tb =>
            if String.eqb (id tb) (dragId d)
            then with_pos tb (x tb + dx)%Z (y tb + dy)%Z
            else tb)
           <$> textboxes st)
        (isTextboxMode st)
        (Some (mkDrag (dragId d) (clientX e) (clientY e)))
        (isTabPressed st)
        (listenerTextboxes st)
  end.

Definition handleMouseUp (st : State) : State := set_dragState st None.

(** *** Placement (lines 109-122) *)

(** The template literal [`textbox-${Date.now()}`]. *)
Definition textbox_id (t : Z) : string := "textbox-" +:+ pretty t.

Definition handleOverlayClick (w : Window) (e : MouseEvent) (st : State) : State :=
  if negb (isTextboxMode st) then st
  else
    let newTextbox :=
      mkTextbox (textbox_id (now w))
                (clientX e + scrollX w)%Z
                (clientY e + scrollY w)%Z
                ""
                true in
    set_isTextboxMode (set_textboxes st (textboxes st ++ [newTextbox])) false.

(** *** Text changes (lines 125-129) *)

Definition handleTextChange (i : string) (t : string) (tbs : list Textbox)
  : list Textbox :=
  (fun tb => if String.eqb (id tb) i
             then with_isEditing (with_text tb t) false
             else tb) <$> tbs.

(** *** Handlers written inline in the JSX; [textbox] is the element of
    [textboxes.map] whose closure the handler belongs to. *)

(** [onMouseDown] of the box (lines 172-179). *)
Definition box_onMouseDown (textbox : Textbox) (e : MouseEvent) (st : State) : State :=
  set_dragState st (Some (mkDrag (id textbox) (clientX e) (clientY e))).

(** [onDoubleClick] of the box (lines 180-185). *)
Definition box_onDoubleClick (textbox : Textbox) (st : State) : State :=
  set_textboxes st
    ((fun tb => if String.eqb (id tb) (id textbox)
                then with_isEditing tb true else tb)
       <$> textboxes st).

(** [onChange] of the text field (lines 203-207). *)
Definition textarea_onChange (textbox : Textbox) (value : string) (st : State) : State :=
  set_textboxes st
    ((fun tb => if String.eqb (id tb) (id textbox)
                then with_text tb value else tb)
       <$> textboxes st).

(** The element that receives focus when the field loses it
    ([e.relatedTarget]): the delete control of the box at some index, or any
    other element, known by its tag name. *)
Inductive Element :=
| DeleteControl (index : nat)
| OtherElement (tag : string).

(** [el.matches('button')] *)
Definition matches_button (el : Element) : bool :=
  match el with
  | DeleteControl _ => true
  | OtherElement tag => String.eqb tag "button"
  end.

(** [onBlur] of the text field (lines 208-212);
    [e.relatedTarget?.matches('button')] is [undefined] for a null target. *)
Definition textarea_onBlur (textbox : Textbox) (relatedTarget : option Element)
    (value : string) (st : State) : State :=
  if negb (from_option matches_button false relatedTarget)
  then set_textboxes st (handleTextChange (id textbox) value (textboxes st))
  else st.

(** [onKeyDown] of the text field (lines 213-221).  Both [setTextboxes] calls
    are given a list computed from the [textboxes] of the same render; the
    second value replaces the first.  The boolean says whether
    [preventDefault] was called. *)
Definition textarea_onKeyDown (textbox : Textbox) (e : KeyboardEvent)
    (value : string) (st : State) : State * bool :=
  if String.eqb (key e) "Enter" && negb (shiftKey e) then
    let committed :=
      set_textboxes st (handleTextChange (id textbox) value (textboxes st)) in
    (set_textboxes committed
       ((fun tb => if String.eqb (id tb) (id textbox)
                   then with_isEditing tb false else tb)
          <$> textboxes st),
     true)
  else (st, false).

(** [onClick] of the delete control (lines 236-240). *)
Definition delete_onClick (textbox : Textbox) (st : State) : State :=
  set_textboxes st
    (filter (fun tb => negb (String.eqb (id tb) (id textbox))) (textboxes st)).

(** *** The rendered tree and event dispatch *)

(** The parts of one rendered box: the outer element with the read-only text,
    and, only in the editing branch of the conditional render
    (lines 198-275), the text field and the delete control. *)
Inductive Part := Box | Field | DeleteButton.

Definition rendered_parts (tb : Textbox) : list Part :=
  if isEditing tb then [Box; Field; DeleteButton] else [Box].

Definition part_eqb (p q : Part) : bool :=
  match p, q with
  | Box, Box | Field, Field | DeleteButton, DeleteButton => true
  | _, _ => false
  end.

Definition is_rendered (tb : Textbox) (p : Part) : bool :=
  existsb (part_eqb p) (rendered_parts tb).

Inductive Event :=
| KeyDown (e : KeyboardEvent)                 (* window keydown *)
| KeyUp (e : KeyboardEvent)                   (* window keyup *)
| MouseMove (e : MouseEvent)                  (* window mousemove *)
| MouseUp                                     (* window mouseup *)
| OverlayClick (w : Window) (e : MouseEvent)  (* click on the placement catcher *)
| MouseDown (index : nat) (p : Part) (e : MouseEvent)
| DoubleClick (index : nat)
| Change (index : nat) (value : string)
| Blur (index : nat) (relatedTarget : option Element) (value : string)
| FieldKeyDown (index : nat) (e : KeyboardEvent) (value : string)
| DeleteClick (index : nat).

(** The box at [index], provided the part the event is aimed at is rendered. *)
Definition target (st : State) (index : nat) (p : Part) : option Textbox :=
  match textboxes st !! index with
  | Some tb => if is_rendered tb p then Some tb else None
  | None => None
  end.

(** One event against the current render.  [None]: the target element is not
    in the tree.  The window listeners for [mousemove] and [mouseup] are only
    attached while [dragState] is set (lines 97-106), and the [mousemove]
    listener maps the [textboxes] it closed over, not those of the current
    render; the delete control stops the propagation of its own [mousedown]
    (lines 241-244); a key pressed in the text field also reaches the window
    listener. *)
Definition dispatch (st : State) (ev : Event) : option State :=
  match ev with
  | KeyDown e => Some (handleKeyDown e st)
  | KeyUp e => Some (handleKeyUp e st)
  | MouseMove e =>
      Some (match dragState st with
            | Some _ => handleMouseMove e (set_textboxes st (listenerTextboxes st))
            | None => st
            end)
  | MouseUp =>
      Some (match dragState st with Some _ => handleMouseUp st | None => st end)
  | OverlayClick w e =>
      if isTextboxMode st then Some (handleOverlayClick w e st) else None
  | MouseDown i p e =>
      tb ← target st i p;
      Some (match p with
            | DeleteButton => st
            | _ => box_onMouseDown tb e st
            end)
  | DoubleClick i =>
      tb ← target st i Box; Some (box_onDoubleClick tb st)
  | Change i v =>
      tb ← target st i Field; Some (textarea_onChange tb v st)
  | Blur i rt v =>
      tb ← target st i Field; Some (textarea_onBlur tb rt v st)
  | FieldKeyDown i e v =>
      tb ← target st i Field;
      Some (handleKeyDown e (fst (textarea_onKeyDown tb e v st)))
  | DeleteClick i =>
      tb ← target st i DeleteButton; Some (delete_onClick tb st)
  end.

(** Whether an event of the render [prev] calls [setDragState] with a value
    that differs from the current one: a pointer move or a pointer-up while
    a drag is active, and a pointer-down on a box outside its delete control
    (a new object each time). *)
Definition sets_dragState (prev : State) (ev : Event) : bool :=
  match ev with
  | MouseMove _ | MouseUp => bool_decide (is_Some (dragState prev))
  | MouseDown _ p _ => negb (part_eqb p DeleteButton)
  | _ => false
  end.

(** The drag effect (lines 97-106) runs again when [dragState] changed; its
    listeners then close over the [textboxes] of the new render. *)
Definition relisten (prev : State) (ev : Event) (st : State) : State :=
  if sets_dragState prev ev then set_listenerTextboxes st (textboxes st)
  else st.

(** An event followed by the effects of the next render. *)
Definition step (st : State) (ev : Event) : option State :=
  (fun st' => relisten st ev (rebind_keys st st')) <$> dispatch st ev.

Fixpoint run (st : State) (evs : list Event) : option State :=
  match evs with
  | [] => Some st
  | ev :: evs' =>
      match step st ev with
      | Some st' => run st' evs'
      | None => None
      end
  end.

(** The state of a freshly mounted overlay over an empty collection. *)
Definition initial : State := mkState [] false None false [].

(** *** Vocabulary of the statements *)

Definition ids (st : State) : list string := id <$> textboxes st.

(** The ids of the boxes the drag listeners closed over. *)
Definition listener_ids (st : State) : list string :=
  id <$> listenerTextboxes st.

(** The clock readings of the placement clicks of an event sequence. *)
Fixpoint click_times (evs : list Event) : list Z :=
  match evs with
  | [] => []
  | OverlayClick w _ :: evs' => now w :: click_times evs'
  | _ :: evs' => click_times evs'
  end.

(** The pointer positions reached from [(px, py)] by successive deltas. *)
Fixpoint pointer_path (px py : Z) (deltas : list (Z * Z)) : list MouseEvent :=
  match deltas with
  | [] => []
  | (dx, dy) :: rest =>
      mkMouse (px + dx) (py + dy) :: pointer_path (px + dx) (py + dy) rest
  end.

Definition sum_dx (deltas : list (Z * Z)) : Z :=
  foldr (fun d acc => (d.1 + acc)%Z) 0%Z deltas.

Definition sum_dy (deltas : list (Z * Z)) : Z :=
  foldr (fun d acc => (d.2 + acc)%Z) 0%Z deltas.

(** Every box with id [i] moved by [(dx, dy)], every other box as it was. *)
Definition translate (i : string) (dx dy : Z) (tbs : list Textbox) : list Textbox :=
  (fun tb => if String.eqb (id tb) i
             then with_pos tb (x tb + dx)%Z (y tb + dy)%Z
             else tb) <$> tbs.

(** The default action of Enter in a multi-line text field when the key
    handler does not cancel it: a line feed is inserted at the caret, and the
    field reports its new content through a change event. *)
Definition insert_newline (caret : nat) (value : string) : string :=
  String.substring 0 caret value
  +:+ String (Ascii.ascii_of_nat 10) ""
  +:+ String.substring caret (String.length value - caret) value.

(** Where the pointer is after the moves [es] of a drag that began at
    [e0]. *)
Definition end_point (e0 : MouseEvent) (es : list MouseEvent) : MouseEvent :=
  default e0 (last es).

(** The key-downs with code [KeyT] of an event sequence, whether they reach
    the window directly or through the text field. *)
Fixpoint count_KeyT (evs : list Event) : nat :=
  match evs with
  | [] => 0
  | KeyDown e :: evs' | FieldKeyDown _ e _ :: evs' =>
      Nat.b2n (String.eqb (code e) "KeyT") + count_KeyT evs'
  | _ :: evs' => count_KeyT evs'
  end.

(** Events that neither place nor delete a box, nor write back the boxes of
    an earlier render. *)
Definition keeps_boxes (ev : Event) : bool :=
  match ev with
  | OverlayClick _ _ | DeleteClick _ | MouseMove _ => false
  | _ => true
  end.

End TextboxOverlay.

(** * ScribbleOverlay.tsx *)

Module ScribbleOverlay.

(** ** The drawing surface *)

(** [globalCompositeOperation]: ['source-over'] draws, ['destination-out']
    erases. *)
Inductive Composite := SourceOver | DestinationOut.

(** The current path of the 2D context, as the calls that built it. *)
Inductive Segment :=
| SegMove (px py : Z)
| SegLine (px py : Z)
| SegClose.

(** The raster, as what has been painted on it since it was last cleared: a
    stroked path with the style it was stroked in, another raster drawn as an
    image under the current scale ([drawImage]), or pixel data put back
    ([putImageData]). *)
Inductive Raster :=
| Blank
| Stroked (under : Raster) (path : list Segment) (op : Composite) (width : Z)
    (color : string)
| Image (under : Raster) (src : Raster) (scale : Z)
| Pixels (under : Raster) (src : Raster).

(** The path and painting methods called on the context, in call order. *)
Inductive CtxCall :=
| BeginPath
| MoveTo (px py : Z)
| LineTo (px py : Z)
| Stroke
| ClosePath.

(** [ImageData] returned by [getImageData(0, 0, width, height)]. *)
Record ImageData := mkImageData {
  data : Raster;
  dataWidth : Z;
  dataHeight : Z
}.

(** The canvas element with the state of its 2D context.  [hasContext] is
    whether [getContext('2d')] returns a context; [calls] records the path
    and painting calls made so far. *)
Record Canvas := mkCanvas {
  width : Z;
  height : Z;
  styleWidth : Z;
  styleHeight : Z;
  hasContext : bool;
  globalCompositeOperation : Composite;
  lineWidth : Z;
  strokeStyle : string;
  lineCap : string;
  lineJoin : string;
  scale : Z;
  path : list Segment;
  raster : Raster;
  calls : list CtxCall
}.

(** [getBoundingClientRect()] of the canvas. *)
Record Rect := mkRect { left : Z; top : Z }.

(** What [updateCanvasSize] measures: [window.devicePixelRatio], the parent
    element (absent: [None]), the document element, and whether the scratch
    canvas yields a 2D context. *)
Record Parent := mkParent {
  scrollHeight : Z;
  offsetHeight : Z;
  clientHeight : Z;
  offsetWidth : Z
}.

Record Layout := mkLayout {
  devicePixelRatio : Z;
  parentElement : option Parent;
  docScrollHeight : Z;
  docOffsetHeight : Z;
  docClientHeight : Z;
  scratchContext : bool
}.

(** ** Component state: the [useState] cells, the three refs, the canvas
    behind [canvasRef] ([None]: the ref is null), the [isScribbleMode] prop
    and the [isTabPressed] variable of the key bindings.  The tooltip cell
    [hoveredButton] has no handler that touches anything else and is left
    out. *)
Record State := mkState {
  isScribbleMode : bool;
  isDrawing : bool;
  isEraser : bool;
  isSpaceHeld : bool;
  cursorPosition : Z * Z;
  backgroundState : bool;          (* false = draw, true = erase *)
  strokeColor : string;
  displayIntroText : bool;
  isMouseDown : bool;
  didDrawInStroke : bool;
  lastDrawnState : option ImageData;
  canvasRef : option Canvas;
  isTabPressed : bool
}.

Definition set_isScribbleMode (st : State) (b : bool) : State :=
  mkState b (isDrawing st) (isEraser st) (isSpaceHeld st) (cursorPosition st)
    (backgroundState st) (strokeColor st) (displayIntroText st)
    (isMouseDown st) (didDrawInStroke st) (lastDrawnState st) (canvasRef st)
    (isTabPressed st).

Definition set_isEraser (st : State) (b : bool) : State :=
  mkState (isScribbleMode st) (isDrawing st) b (isSpaceHeld st)
    (cursorPosition st) (backgroundState st) (strokeColor st)
    (displayIntroText st) (isMouseDown st) (didDrawInStroke st)
    (lastDrawnState st) (canvasRef st) (isTabPressed st).

Definition set_isSpaceHeld (st : State) (b : bool) : State :=
  mkState (isScribbleMode st) (isDrawing st) (isEraser st) b
    (cursorPosition st) (backgroundState st) (strokeColor st)
    (displayIntroText st) (isMouseDown st) (didDrawInStroke st)
    (lastDrawnState st) (canvasRef st) (isTabPressed st).

Definition set_cursorPosition (st : State) (p : Z * Z) : State :=
  mkState (isScribbleMode st) (isDrawing st) (isEraser st) (isSpaceHeld st)
    p (backgroundState st) (strokeColor st) (displayIntroText st)
    (isMouseDown st) (didDrawInStroke st) (lastDrawnState st) (canvasRef st)
    (isTabPressed st).

Definition set_backgroundState (st : State) (b : bool) : State :=
  mkState (isScribbleMode st) (isDrawing st) (isEraser st) (isSpaceHeld st)
    (cursorPosition st) b (strokeColor st) (displayIntroText st)
    (isMouseDown st) (didDrawInStroke st) (lastDrawnState st) (canvasRef st)
    (isTabPressed st).

Definition set_strokeColor (st : State) (c : string) : State :=
  mkState (isScribbleMode st) (isDrawing st) (isEraser st) (isSpaceHeld st)
    (cursorPosition st) (backgroundState st) c (displayIntroText st)
    (isMouseDown st) (didDrawInStroke st) (lastDrawnState st) (canvasRef st)
    (isTabPressed st).

Definition set_didDrawInStroke (st : State) (b : bool) : State :=
  mkState (isScribbleMode st) (isDrawing st) (isEraser st) (isSpaceHeld st)
    (cursorPosition st) (backgroundState st) (strokeColor st)
    (displayIntroText st) (isMouseDown st) b (lastDrawnState st)
    (canvasRef st) (isTabPressed st).

Definition set_lastDrawnState (st : State) (s : option ImageData) : State :=
  mkState (isScribbleMode st) (isDrawing st) (isEraser st) (isSpaceHeld st)
    (cursorPosition st) (backgroundState st) (strokeColor st)
    (displayIntroText st) (isMouseDown st) (didDrawInStroke st) s
    (canvasRef st) (isTabPressed st).

Definition set_canvas (st : State) (c : Canvas) : State :=
  mkState (isScribbleMode st) (isDrawing st) (isEraser st) (isSpaceHeld st)
    (cursorPosition st) (backgroundState st) (strokeColor st)
    (displayIntroText st) (isMouseDown st) (didDrawInStroke st)
    (lastDrawnState st) (Some c) (isTabPressed st).

Definition set_isTabPressed (st : State) (b : bool) : State :=
  mkState (isScribbleMode st) (isDrawing st) (isEraser st) (isSpaceHeld st)
    (cursorPosition st) (backgroundState st) (strokeColor st)
    (displayIntroText st) (isMouseDown st) (didDrawInStroke st)
    (lastDrawnState st) (canvasRef st) b.

(** ** Context methods *)

Definition beginPath (c : Canvas) : Canvas :=
  mkCanvas (width c) (height c) (styleWidth c) (styleHeight c) (hasContext c)
    (globalCompositeOperation c) (lineWidth c) (strokeStyle c) (lineCap c)
    (lineJoin c) (scale c) [] (raster c) (calls c ++ [BeginPath]).

Definition moveTo (px py : Z) (c : Canvas) : Canvas :=
  mkCanvas (width c) (height c) (styleWidth c) (styleHeight c) (hasContext c)
    (globalCompositeOperation c) (lineWidth c) (strokeStyle c) (lineCap c)
    (lineJoin c) (scale c) (path c ++ [SegMove px py]) (raster c)
    (calls c ++ [MoveTo px py]).

Definition lineTo (px py : Z) (c : Canvas) : Canvas :=
  mkCanvas (width c) (height c) (styleWidth c) (styleHeight c) (hasContext c)
    (globalCompositeOperation c) (lineWidth c) (strokeStyle c) (lineCap c)
    (lineJoin c) (scale c) (path c ++ [SegLine px py]) (raster c)
    (calls c ++ [LineTo px py]).

Definition closePath (c : Canvas) : Canvas :=
  mkCanvas (width c) (height c) (styleWidth c) (styleHeight c) (hasContext c)
    (globalCompositeOperation c) (lineWidth c) (strokeStyle c) (lineCap c)
    (lineJoin c) (scale c) (path c ++ [SegClose]) (raster c)
    (calls c ++ [ClosePath]).

(** [ctx.stroke()] paints the whole current path in the current style. *)
Definition stroke (c : Canvas) : Canvas :=
  mkCanvas (width c) (height c) (styleWidth c) (styleHeight c) (hasContext c)
    (globalCompositeOperation c) (lineWidth c) (strokeStyle c) (lineCap c)
    (lineJoin c) (scale c) (path c)
    (Stroked (raster c) (path c) (globalCompositeOperation c) (lineWidth c)
       (strokeStyle c))
    (calls c ++ [Stroke]).

Definition set_globalCompositeOperation (op : Composite) (c : Canvas) : Canvas :=
  mkCanvas (width c) (height c) (styleWidth c) (styleHeight c) (hasContext c)
    op (lineWidth c) (strokeStyle c) (lineCap c) (lineJoin c) (scale c)
    (path c) (raster c) (calls c).

Definition set_lineWidth (w : Z) (c : Canvas) : Canvas :=
  mkCanvas (width c) (height c) (styleWidth c) (styleHeight c) (hasContext c)
    (globalCompositeOperation c) w (strokeStyle c) (lineCap c) (lineJoin c)
    (scale c) (path c) (raster c) (calls c).

Definition set_strokeStyle (s : string) (c : Canvas) : Canvas :=
  mkCanvas (width c) (height c) (styleWidth c) (styleHeight c) (hasContext c)
    (globalCompositeOperation c) (lineWidth c) s (lineCap c) (lineJoin c)
    (scale c) (path c) (raster c) (calls c).

Definition set_lineCapJoin (cap join : string) (c : Canvas) : Canvas :=
  mkCanvas (width c) (height c) (styleWidth c) (styleHeight c) (hasContext c)
    (globalCompositeOperation c) (lineWidth c) (strokeStyle c) cap join
    (scale c) (path c) (raster c) (calls c).

Definition getImageData (c : Canvas) : ImageData :=
  mkImageData (raster c) (width c) (height c).

(** Assigning [canvas.width] and [canvas.height] (with the style size): the
    raster is cleared and the context returns to its defaults. *)
Definition resize_to (sw sh w h : Z) (c : Canvas) : Canvas :=
  mkCanvas w h sw sh (hasContext c) SourceOver 1 "#000000" "butt" "miter" 1
    [] Blank (calls c).

(** [ctx.scale(dpr, dpr)] on the fresh context. *)
Definition set_scale (k : Z) (c : Canvas) : Canvas :=
  mkCanvas (width c) (height c) (styleWidth c) (styleHeight c) (hasContext c)
    (globalCompositeOperation c) (lineWidth c) (strokeStyle c) (lineCap c)
    (lineJoin c) (scale c * k) (path c) (raster c) (calls c).

(** [ctx.drawImage(img, 0, 0)] under the current scale. *)
Definition drawImage (img : Raster) (c : Canvas) : Canvas :=
  mkCanvas (width c) (height c) (styleWidth c) (styleHeight c) (hasContext c)
    (globalCompositeOperation c) (lineWidth c) (strokeStyle c) (lineCap c)
    (lineJoin c) (scale c) (path c) (Image (raster c) img (scale c))
    (calls c).

(** [ctx.putImageData(d, 0, 0)] *)
Definition putImageData (d : ImageData) (c : Canvas) : Canvas :=
  mkCanvas (width c) (height c) (styleWidth c) (styleHeight c) (hasContext c)
    (globalCompositeOperation c) (lineWidth c) (strokeStyle c) (lineCap c)
    (lineJoin c) (scale c) (path c) (Pixels (raster c) (data d))
    (calls c).

(** ** Handlers *)

(** [saveCanvasState] (lines 27-33) *)
Definition saveCanvasState (st : State) : State :=
  match canvasRef st with
  | None => st
  | Some c =>
      if hasContext c then set_lastDrawnState st (Some (getImageData c))
      else st
  end.

(** The effect on [isDrawing] (lines 36-41); [prev] is the render before. *)
Definition saveAfterStroke (prev st : State) : State :=
  if Bool.eqb (isDrawing prev) (isDrawing st) then st
  else if negb (isDrawing st) && didDrawInStroke st
       then set_didDrawInStroke (saveCanvasState st) false
       else st.

(** [updateCanvasSize] (lines 51-119) *)
Definition updateCanvasSize (l : Layout) (st : State) : State :=
  match canvasRef st with
  | None => st
  | Some canvas =>
      let dpr := if (devicePixelRatio l =? 0)%Z then 1%Z else devicePixelRatio l in
      match parentElement l with
      | None => st
      | Some parentContainer =>
          let maxHeight :=
            Z.max (scrollHeight parentContainer)
              (Z.max (offsetHeight parentContainer)
                 (Z.max (clientHeight parentContainer)
                    (Z.max (docScrollHeight l)
                       (Z.max (docOffsetHeight l) (docClientHeight l))))) in
          let w := offsetWidth parentContainer in
          let h := maxHeight in
          if (width canvas =? w * dpr)%Z && (height canvas =? h * dpr)%Z then st
          else
            let currentState := lastDrawnState st in
            let tempCanvas := raster canvas in
            let resized := resize_to w h (w * dpr) (h * dpr) canvas in
            if negb (hasContext resized) then set_canvas st resized
            else
              let scaled := set_scale dpr resized in
              let restored :=
                if scratchContext l then
                  saveCanvasState (set_canvas st (drawImage tempCanvas scaled))
                else
                  match currentState with
                  | Some d => set_canvas st (putImageData d scaled)
                  | None => set_canvas st scaled
                  end in
              match canvasRef restored with
              | Some c =>
                  set_canvas restored
                    (set_lineCapJoin "round" "round"
                       (set_lineWidth 2 (set_strokeStyle (strokeColor st) c)))
              | None => restored
              end
      end
  end.

(** [stopDrawing] (lines 134-149) *)
Definition stopDrawing (st : State) : State :=
  if negb (isDrawing st) then st
  else
    match canvasRef st with
    | None => st
    | Some canvas =>
        let canvas' :=
          if hasContext canvas
          then set_globalCompositeOperation SourceOver (closePath canvas)
          else canvas in
        mkState (isScribbleMode st) false (isEraser st) (isSpaceHeld st)
          (cursorPosition st) (backgroundState st) (strokeColor st)
          (displayIntroText st) false false (lastDrawnState st)
          (Some canvas') (isTabPressed st)
    end.

(** The space and E keys (lines 152-187). *)
Module ToolKeys.

Definition handleKeyDown (e : KeyboardEvent) (st : State) : State :=
  let st1 :=
    if String.eqb (code e) "Space" && isScribbleMode st
    then set_isEraser (set_isSpaceHeld st true) false
    else st in
  if String.eqb (code e) "KeyE" && isScribbleMode st
  then set_isSpaceHeld (set_isEraser st1 true) true
  else st1.

Definition handleKeyUp (e : KeyboardEvent) (st : State) : State :=
  let st1 :=
    if String.eqb (code e) "Space" && isScribbleMode st
    then stopDrawing (set_isSpaceHeld (set_isEraser st (backgroundState st)) false)
    else st in
  if String.eqb (code e) "KeyE" && isScribbleMode st
  then stopDrawing (set_isSpaceHeld (set_isEraser st1 (backgroundState st)) false)
  else st1.

End ToolKeys.

(** The mode chord and Escape (lines 190-224). *)
Module KeyBindings.

Definition handleKeyDown (e : KeyboardEvent) (st : State) : State :=
  if String.eqb (code e) "Tab" then set_isTabPressed st true
  else
    let st1 :=
      if isTabPressed st && String.eqb (code e) "KeyS"
      then set_isScribbleMode st (negb (isScribbleMode st))
      else st in
    if (String.eqb (key e) "Escape" || String.eqb (code e) "Escape")
         && isScribbleMode st
    then set_isScribbleMode st1 false
    else st1.

Definition handleKeyUp (e : KeyboardEvent) (st : State) : State :=
  if String.eqb (code e) "Tab" then set_isTabPressed st false else st.

(** The effect depends on [isScribbleMode]; when it runs again its closure
    starts from [let isTabPressed = false]. *)
Definition rebind (prev st : State) : State :=
  if Bool.eqb (isScribbleMode prev) (isScribbleMode st) then st
  else set_isTabPressed st false.

End KeyBindings.

(** [startDrawing] (lines 226-256) *)
Definition startDrawing (rect : Rect) (e : MouseEvent) (st : State) : State :=
  if negb (isScribbleMode st) then st
  else
    match canvasRef st with
    | None => st
    | Some canvas =>
        let px := (clientX e - left rect)%Z in
        let py := (clientY e - top rect)%Z in
        let canvas' :=
          if hasContext canvas then
            let c := moveTo px py (beginPath canvas) in
            if isEraser st
            then set_lineWidth 20 (set_globalCompositeOperation DestinationOut c)
            else set_strokeStyle (strokeColor st)
                   (set_lineWidth 2 (set_globalCompositeOperation SourceOver c))
          else canvas in
        mkState (isScribbleMode st) true (isEraser st) (isSpaceHeld st)
          (cursorPosition st) (backgroundState st) (strokeColor st)
          false true false (lastDrawnState st) (Some canvas')
          (isTabPressed st)
    end.

(** [draw] (lines 258-285) *)
Definition draw (rect : Rect) (e : MouseEvent) (st : State) : State :=
  if negb (isScribbleMode st) then st
  else
    match canvasRef st with
    | None => st
    | Some canvas =>
        let px := (clientX e - left rect)%Z in
        let py := (clientY e - top rect)%Z in
        let shouldStartStroke :=
          (isSpaceHeld st || isMouseDown st) && negb (isDrawing st) in
        if shouldStartStroke then startDrawing rect e st
        else if isDrawing st && (isSpaceHeld st || isMouseDown st) then
          if negb (hasContext canvas) then st
          else set_didDrawInStroke
                 (set_canvas st (stroke (lineTo px py canvas))) true
        else st
    end.

(** [clearCanvas] (lines 287-295): [clearRect] over the canvas size. *)
Definition clearCanvas (st : State) : State :=
  match canvasRef st with
  | None => st
  | Some canvas =>
      if negb (hasContext canvas) then st
      else set_canvas st
             (mkCanvas (width canvas) (height canvas) (styleWidth canvas)
                (styleHeight canvas) (hasContext canvas)
                (globalCompositeOperation canvas) (lineWidth canvas)
                (strokeStyle canvas) (lineCap canvas) (lineJoin canvas)
                (scale canvas) (path canvas) Blank (calls canvas))
  end.

(** The window [mousemove] listener that follows the pointer
    (lines 298-310). *)
Definition handleMouseMove (e : MouseEvent) (st : State) : State :=
  set_cursorPosition st (clientX e, clientY e).

(** The pencil and eraser buttons (lines 418-421, 474-477). *)
Definition pencil_onClick (st : State) : State :=
  set_backgroundState (set_isEraser st false) false.

Definition eraser_onClick (st : State) : State :=
  set_backgroundState (set_isEraser st true) true.

(** ** The rendered tree and event dispatch *)

(** [pointerEvents: isScribbleMode ? 'auto' : 'none'] on the canvas
    (line 349). *)
Definition pointerEvents (st : State) : bool := isScribbleMode st.

Inductive Event :=
| KeyDown (e : KeyboardEvent)
| KeyUp (e : KeyboardEvent)
| MouseDown (rect : Rect) (e : MouseEvent)   (* on the canvas *)
| MouseMove (rect : Rect) (e : MouseEvent)   (* over the canvas *)
| MouseUp                                    (* on the canvas *)
| MouseOut                                   (* leaving the canvas *)
| PencilClick
| EraserClick
| ColorClick (color : string) (l : Layout)
| ClearClick
| Resize (l : Layout).                       (* window resize or scroll *)

(** The resize and scroll listeners are attached at mount only when the
    canvas and its context exist (lines 45-49). *)
Definition onResize (l : Layout) (st : State) : State :=
  match canvasRef st with
  | Some c => if hasContext c then updateCanvasSize l st else st
  | None => st
  end.

(** One event against the current render.  With [pointerEvents] off the
    canvas is not a pointer target and the event goes to the page beneath;
    the toolbar exists only in scribble mode ([None] otherwise); both window
    key listeners receive every key event; the pointer-following listener is
    attached only in scribble mode. *)
Definition dispatch (st : State) (ev : Event) : option State :=
  match ev with
  | KeyDown e => Some (KeyBindings.handleKeyDown e (ToolKeys.handleKeyDown e st))
  | KeyUp e => Some (KeyBindings.handleKeyUp e (ToolKeys.handleKeyUp e st))
  | MouseDown rect e =>
      Some (if pointerEvents st then startDrawing rect e st else st)
  | MouseMove rect e =>
      Some (if pointerEvents st then handleMouseMove e (draw rect e st) else st)
  | MouseUp => Some (if pointerEvents st then stopDrawing st else st)
  | MouseOut => Some (if pointerEvents st then stopDrawing st else st)
  | PencilClick => if isScribbleMode st then Some (pencil_onClick st) else None
  | EraserClick => if isScribbleMode st then Some (eraser_onClick st) else None
  | ColorClick color _ =>
      if isScribbleMode st then Some (set_strokeColor st color) else None
  | ClearClick => if isScribbleMode st then Some (clearCanvas st) else None
  | Resize l => Some (onResize l st)
  end.

(** The effects that follow a render, in the order the component declares
    them: the snapshot effect, the canvas effect (it depends on
    [strokeColor] and measures again when the colour changed), the key
    bindings. *)
Definition effects (prev : State) (ev : Event) (st : State) : State :=
  let st1 := saveAfterStroke prev st in
  let st2 :=
    match ev with
    | ColorClick _ l =>
        if String.eqb (strokeColor prev) (strokeColor st1) then st1
        else onResize l st1
    | _ => st1
    end in
  KeyBindings.rebind prev st2.

Definition step (st : State) (ev : Event) : option State :=
  effects st ev <$> dispatch st ev.

Fixpoint run (st : State) (evs : list Event) : option State :=
  match evs with
  | [] => Some st
  | ev :: evs' =>
      match step st ev with
      | Some st' => run st' evs'
      | None => None
      end
  end.

(** ** Mounting *)

(** A canvas element before it is sized: 300 by 150, default context. *)
Definition fresh_canvas : Canvas :=
  mkCanvas 300 150 300 150 true SourceOver 1 "#000000" "butt" "miter" 1
    [] Blank [].

(** The initial values of the [useState] and [useRef] cells. *)
Definition unmounted (mode : bool) : State :=
  mkState mode false false false (0%Z, 0%Z) false "#5A5A5A" true false false
    None (Some fresh_canvas) false.

(** The component after its mount effects: the canvas effect sizes the
    canvas once ([updateCanvasSize()], line 122). *)
Definition initial (mode : bool) (l : Layout) : State :=
  onResize l (unmounted mode).

(** ** Counting strokes *)

(** The number of paths that were painted: a path starts at [beginPath] and
    counts once, at its first [stroke()]. *)
Fixpoint strokes_from (painted : bool) (cs : list CtxCall) : nat :=
  match cs with
  | [] => 0
  | BeginPath :: r => strokes_from false r
  | Stroke :: r => (if painted then 0 else 1) + strokes_from true r
  | _ :: r => strokes_from painted r
  end.

Definition strokes_drawn (cs : list CtxCall) : nat := strokes_from false cs.

Fixpoint paths_begun (cs : list CtxCall) : nat :=
  match cs with
  | [] => 0
  | BeginPath :: r => S (paths_begun r)
  | _ :: r => paths_begun r
  end.

Definition canvas_calls (st : State) : list CtxCall :=
  from_option calls [] (canvasRef st).

Definition canvas_raster (st : State) : Raster :=
  from_option raster Blank (canvasRef st).

(** *** Vocabulary of the statements *)

(** The tool cells of the state: mode, active tool, held key, resting tool. *)
Definition tools (st : State) : bool * bool * bool * bool :=
  (isScribbleMode st, isEraser st, isSpaceHeld st, backgroundState st).

(** The cells of the stroke in progress: drawing flag, pointer-held flag,
    drew-in-stroke flag, the canvas with its context, the saved snapshot. *)
Definition stroke_cells (st : State)
  : bool * bool * bool * option Canvas * option ImageData :=
  (isDrawing st, isMouseDown st, didDrawInStroke st, canvasRef st,
   lastDrawnState st).

(** Scribble mode is on, no trigger key is held, and the canvas is mounted
    with a 2D context. *)
Definition ready (st : State) : Prop :=
  isScribbleMode st = true
  /\ isSpaceHeld st = false
  /\ exists c, canvasRef st = Some c /\ hasContext c = true.

(** The tool-state machine is in [idle]: no stroke in progress, no pointer
    button recorded as held. *)
Definition idle (st : State) : Prop :=
  isDrawing st = false /\ isMouseDown st = false.

(** A pointer gesture on the canvas: moves with no button held, the
    pointer-down, the moves made with the button held, and the pointer-up
    that ends it.  Each pointer event comes with the bounding rectangle the
    canvas has at that moment. *)
Record Gesture := mkGesture {
  hover : list (Rect * MouseEvent);
  down : Rect * MouseEvent;
  dragged : list (Rect * MouseEvent)
}.

Definition moves (ps : list (Rect * MouseEvent)) : list Event :=
  (fun p => MouseMove p.1 p.2) <$> ps.

Definition gesture_events (g : Gesture) : list Event :=
  moves (hover g) ++ [MouseDown (down g).1 (down g).2]
  ++ moves (dragged g) ++ [MouseUp].

Definition session_events (gs : list Gesture) : list Event :=
  gs ≫= gesture_events.

(** Whether the pointer moved between the down and the up of a gesture. *)
Definition has_move (g : Gesture) : bool :=
  match dragged g with [] => false | _ :: _ => true end.

Fixpoint count_moved (gs : list Gesture) : nat :=
  match gs with
  | [] => 0
  | g :: gs' => (if has_move g then 1 else 0) + count_moved gs'
  end.

(** The context calls of the held moves of a gesture and of a whole gesture,
    with positions relative to the bounding rectangle. *)
Definition drag_calls (ps : list (Rect * MouseEvent)) : list CtxCall :=
  ps ≫= fun p =>
    [LineTo (clientX p.2 - left p.1) (clientY p.2 - top p.1); Stroke].

Definition gesture_calls (g : Gesture) : list CtxCall :=
  [BeginPath;
   MoveTo (clientX (down g).2 - left (down g).1)
          (clientY (down g).2 - top (down g).1)]
  ++ drag_calls (dragged g) ++ [ClosePath].

(** Whether a raster holds a stroked path, directly or inside an image or
    pixel data painted onto it. *)
Fixpoint has_stroke (r : Raster) : bool :=
  match r with
  | Blank => false
  | Stroked _ _ _ _ _ => true
  | Image under src _ => has_stroke under || has_stroke src
  | Pixels under src => has_stroke under || has_stroke src
  end.

(** [didDrawInStroke] is set only while a stroke is in progress. *)
Definition drew_while_drawing (st : State) : Prop :=
  didDrawInStroke st = true -> isDrawing st = true.

(** Events that do not measure the canvas again. *)
Definition keeps_size (ev : Event) : bool :=
  match ev with
  | Resize _ | ColorClick _ _ => false
  | _ => true
  end.

(** Pointer events on the canvas. *)
Definition is_pointer (ev : Event) : bool :=
  match ev with
  | MouseDown _ _ | MouseMove _ _ | MouseUp | MouseOut => true
  | _ => false
  end.

(** Pointer-down, pointer-move and pointer-up. *)
Definition is_down_move_up (ev : Event) : bool :=
  match ev with
  | MouseDown _ _ | MouseMove _ _ | MouseUp => true
  | _ => false
  end.

(** The cells that no measurement of the canvas touches. *)
Definition flags (st : State)
  : bool * bool * bool * bool * bool * string * bool * bool * bool :=
  (isScribbleMode st, isDrawing st, isEraser st, isSpaceHeld st,
   backgroundState st, strokeColor st, isMouseDown st, didDrawInStroke st,
   isTabPressed st).

(** The tool-state machine has two states: when no stroke is in progress,
    no pointer button is recorded as held, nothing is recorded as drawn, and
    the context composites normally. *)
Definition two_states (st : State) : Prop :=
  isDrawing st = false ->
  isMouseDown st = false
  /\ didDrawInStroke st = false
  /\ from_option globalCompositeOperation SourceOver (canvasRef st)
     = SourceOver.

(** With no trigger key recorded as held, the active tool is the resting
    tool. *)
Definition resting_when_released (st : State) : Prop :=
  isSpaceHeld st = false -> isEraser st = backgroundState st.

(** Scribble mode is on and the canvas is mounted with a 2D context. *)
Definition live (st : State) : Prop :=
  isScribbleMode st = true
  /\ exists c, canvasRef st = Some c /\ hasContext c = true.

(** The style a stroke is painted in: compositing mode, line width, stroke
    style. *)
Definition Style : Type := Composite * Z * string.

Definition canvas_style (c : Canvas) : Style :=
  (globalCompositeOperation c, lineWidth c, strokeStyle c).

(** The styles of the strokes painted on a raster, oldest first (strokes
    inside an image or pixel data drawn onto it are not listed). *)
Fixpoint stroke_styles (r : Raster) : list Style :=
  match r with
  | Blank => []
  | Stroked under _ op w col => stroke_styles under ++ [(op, w, col)]
  | Image under _ _ => stroke_styles under
  | Pixels under _ => stroke_styles under
  end.

Definition painted (st : State) : list Style :=
  stroke_styles (canvas_raster st).

(** The size [updateCanvasSize] aims at for a layout with a parent. *)
Definition ratio (l : Layout) : Z :=
  if (devicePixelRatio l =? 0)%Z then 1%Z else devicePixelRatio l.

Definition max_height (l : Layout) (p : Parent) : Z :=
  Z.max (scrollHeight p)
    (Z.max (offsetHeight p)
       (Z.max (clientHeight p)
          (Z.max (docScrollHeight l)
             (Z.max (docOffsetHeight l) (docClientHeight l))))).

(** Whether the canvas already has the size a layout asks for. *)
Definition sized_for (l : Layout) (p : Parent) (c : Canvas) : bool :=
  (width c =? offsetWidth p * ratio l)%Z
  && (height c =? max_height l p * ratio l)%Z.

(** The canvas is mounted and yields a 2D context. *)
Definition with_context (st : State) : Prop :=
  from_option hasContext false (canvasRef st) = true.

(** The style the context is in, if there is a canvas. *)
Definition style_now (st : State) : option Style :=
  canvas_style <$> canvasRef st.

(** What the drawing surface shows of its history: the calls made, the
    styles of the strokes on the raster, the current style. *)
Definition surface (st : State) : list CtxCall * list Style * option Style :=
  (canvas_calls st, painted st, style_now st).

(** The style [startDrawing] sets for the active tool: the eraser composites
    with destination-out at width 20 and leaves the stroke style alone, the
    pencil composites with source-over at width 2 in the selected colour. *)
Definition tool_style (eraser : bool) (color : string) (before : Style) : Style :=
  if eraser then (DestinationOut, 20%Z, before.2)
  else (SourceOver, 2%Z, color).

(** The style left by [stopDrawing]: compositing back to source-over. *)
Definition released (s : Style) : Style := (SourceOver, s.1.2, s.2).

(** The position of a pointer event relative to the canvas. *)
Definition at_canvas (p : Rect * MouseEvent) : Z * Z :=
  ((clientX p.2 - left p.1)%Z, (clientY p.2 - top p.1)%Z).

End ScribbleOverlay.

(** * Properties of the textbox overlay *)

Module TextboxFacts.
Import TextboxOverlay.

(** ** Records and effects *)

Lemma with_pos_same (tb : Textbox) : with_pos tb (x tb) (y tb) = tb.
Proof. by destruct tb. Qed.

Lemma rebind_keys_textboxes (prev st : State) :
  textboxes (rebind_keys prev st) = textboxes st.
Proof. unfold rebind_keys. by destruct (Bool.eqb _ _). Qed.

Lemma rebind_keys_same_mode (prev st : State) :
  isTextboxMode st = isTextboxMode prev -> rebind_keys prev st = st.
Proof.
  intros H. unfold rebind_keys. rewrite H.
  by rewrite Bool.eqb_reflx.
Qed.

Lemma rebind_keys_listener (prev st : State) :
  listenerTextboxes (rebind_keys prev st) = listenerTextboxes st.
Proof. unfold rebind_keys. by destruct (Bool.eqb _ _). Qed.

Lemma relisten_textboxes (prev : State) (ev : Event) (st : State) :
  textboxes (relisten prev ev st) = textboxes st.
Proof. unfold relisten. by destruct (sets_dragState _ _). Qed.

Lemma relisten_mode (prev : State) (ev : Event) (st : State) :
  isTextboxMode (relisten prev ev st) = isTextboxMode st.
Proof. unfold relisten. by destruct (sets_dragState _ _). Qed.

Lemma relisten_listener (prev : State) (ev : Event) (st : State) :
  listenerTextboxes (relisten prev ev st)
  = if sets_dragState prev ev then textboxes st else listenerTextboxes st.
Proof. unfold relisten. by destruct (sets_dragState _ _). Qed.

Lemma handleKeyDown_textboxes (e : KeyboardEvent) (st : State) :
  textboxes (handleKeyDown e st) = textboxes st.
Proof.
  unfold handleKeyDown.
  repeat match goal with |- context [if ?b then _ else _] => destruct b end;
    reflexivity.
Qed.

Lemma handleKeyUp_textboxes (e : KeyboardEvent) (st : State) :
  textboxes (handleKeyUp e st) = textboxes st.
Proof. unfold handleKeyUp. by destruct (String.eqb _ _). Qed.

Lemma target_Some (st : State) (i : nat) (p : Part) (tb : Textbox) :
  textboxes st !! i = Some tb ->
  is_rendered tb p = true ->
  target st i p = Some tb.
Proof. intros Hi Hp. unfold target. by rewrite Hi, Hp. Qed.

Lemma editing_renders_all (tb : Textbox) (p : Part) :
  isEditing tb = true -> is_rendered tb p = true.
Proof. intros H. unfold is_rendered, rendered_parts. rewrite H. by destruct p. Qed.

Lemma box_always_rendered (tb : Textbox) : is_rendered tb Box = true.
Proof. unfold is_rendered, rendered_parts. by destruct (isEditing tb). Qed.

(** Maps that rewrite only the boxes with one id. *)
Section UpdateById.
Variable f : Textbox -> Textbox.
Variable i : string.

Lemma lookup_update_by_id (tbs : list Textbox) (j : nat) (tb : Textbox) :
  tbs !! j = Some tb ->
  ((fun b => if String.eqb (id b) i then f b else b) <$> tbs) !! j
  = Some (if String.eqb (id tb) i then f tb else tb).
Proof. intros H. by rewrite list_lookup_fmap, H. Qed.

Hypothesis f_keeps_id : forall b, id (f b) = id b.

Lemma ids_update_by_id (tbs : list Textbox) :
  id <$> ((fun b => if String.eqb (id b) i then f b else b) <$> tbs)
  = id <$> tbs.
Proof.
  rewrite <- list_fmap_compose. apply list_fmap_ext.
  intros j b _. cbn. by destruct (String.eqb _ _).
Qed.

End UpdateById.

(** With distinct ids, a box at another index has another id. *)
Lemma other_index_other_id (tbs : list Textbox) (i j : nat) (tb b : Textbox) :
  NoDup (id <$> tbs) ->
  tbs !! i = Some tb ->
  tbs !! j = Some b ->
  j <> i ->
  id b <> id tb.
Proof.
  intros Hnd Hi Hj Hne Heq. apply Hne.
  apply (NoDup_lookup (id <$> tbs) j i (id tb) Hnd).
  - by rewrite list_lookup_fmap, Hj, <- Heq.
  - by rewrite list_lookup_fmap, Hi.
Qed.

(** ** Typing into the field *)

Lemma step_Change (st : State) (i : nat) (tb : Textbox) (v : string) :
  textboxes st !! i = Some tb ->
  isEditing tb = true ->
  step st (Change i v) = Some (textarea_onChange tb v st)
  /\ textboxes (textarea_onChange tb v st) !! i
     = Some (mkTextbox (id tb) (x tb) (y tb) v true).
Proof.
  intros Hi Hed. split.
  - unfold step. cbn [dispatch].
    rewrite (target_Some st i Field tb Hi (editing_renders_all tb Field Hed)).
    cbn. by rewrite rebind_keys_same_mode.
  - cbn [textarea_onChange set_textboxes textboxes].
    rewrite (lookup_update_by_id (fun b => with_text b v) (id tb) _ i tb Hi).
    rewrite String.eqb_refl. unfold with_text. by rewrite Hed.
Qed.

(** C10, as stated, fails: the change handler rewrites every box whose id
    is that of the edited box (lines 204-206), and two boxes placed in the
    same millisecond share their id.  Typing into the second of two such
    boxes overwrites the text of the first, which is not being edited. *)
Lemma change_rewrites_box_with_same_id :
  let tab := mkKey "Tab" "Tab" false in
  let t := mkKey "KeyT" "t" false in
  let w := mkWindow 0 0 1700000000000 in
  let placed :=
    [KeyDown tab; KeyDown t; OverlayClick w (mkMouse 10 10);
     Blur 0 None "first";
     KeyDown tab; KeyDown t; OverlayClick w (mkMouse 50 50)] in
  (textboxes <$> run initial placed)
  = Some [mkTextbox "textbox-1700000000000" 10 10 "first" false;
          mkTextbox "textbox-1700000000000" 50 50 "" true]
  /\ (textboxes <$> run initial (placed ++ [Change 1 "second"]))
     = Some [mkTextbox "textbox-1700000000000" 10 10 "second" false;
             mkTextbox "textbox-1700000000000" 50 50 "second" true].
Proof. split; by vm_compute. Qed.

(** C10, amended.  While a box is being edited, a change event of its text
    field stores the field's value as the text of that box at once; the box
    stays in editing state at the same position.  Every box with another id
    is as it was, and every box with the same id receives the value as its
    text too, nothing else of it changing; so all other boxes are unchanged
    when no two boxes share an id.  The number of boxes and the rest of the
    component stay as they are.  The field shows [textbox.text], so after the
    event the stored text is the content of the field. *)
Theorem change_stores_field_value (st : State) (i : nat) (tb : Textbox)
    (v : string) :
  textboxes st !! i = Some tb ->
  isEditing tb = true ->
  exists st',
    step st (Change i v) = Some st'
    /\ textboxes st' !! i = Some (mkTextbox (id tb) (x tb) (y tb) v true)
    /\ (forall j tb', textboxes st !! j = Some tb' -> id tb' <> id tb ->
                      textboxes st' !! j = Some tb')
    /\ (forall j tb', textboxes st !! j = Some tb' -> id tb' = id tb ->
                      textboxes st' !! j
                      = Some (mkTextbox (id tb') (x tb') (y tb') v
                                (isEditing tb')))
    /\ (NoDup (ids st) ->
        forall j, j <> i -> textboxes st' !! j = textboxes st !! j)
    /\ length (textboxes st') = length (textboxes st)
    /\ isTextboxMode st' = isTextboxMode st
    /\ dragState st' = dragState st
    /\ isTabPressed st' = isTabPressed st.
Proof.
  intros Hi Hed.
  destruct (step_Change st i tb v Hi Hed) as [Hstep Hlook].
  exists (textarea_onChange tb v st).
  split; [exact Hstep|]. split; [exact Hlook|].
  cbn [textarea_onChange set_textboxes textboxes isTextboxMode dragState
       isTabPressed].
  assert (forall j tb', textboxes st !! j = Some tb' -> id tb' <> id tb ->
            ((fun b => if String.eqb (id b) (id tb) then with_text b v else b)
               <$> textboxes st) !! j = Some tb') as Hother.
  { intros j tb' Hj Hne.
    rewrite (lookup_update_by_id (fun b => with_text b v) (id tb) _ j tb' Hj).
    apply String.eqb_neq in Hne. by rewrite Hne. }
  split; [exact Hother|]. split.
  { intros j tb' Hj Heq.
    rewrite (lookup_update_by_id (fun b => with_text b v) (id tb) _ j tb' Hj).
    apply String.eqb_eq in Heq. by rewrite Heq. }
  split; [|by rewrite length_fmap].
  intros Hnd j Hne.
  destruct (textboxes st !! j) as [b|] eqn:Hj.
  - apply Hother; [done|]. by eapply other_index_other_id.
  - by rewrite list_lookup_fmap, Hj.
Qed.

Lemma change_stores_field_value_witness :
  let tb := mkTextbox "textbox-7" 120 80 "hell" true in
  let st := mkState [tb; mkTextbox "textbox-9" 5 5 "other" false] false None false [] in
  exists st',
    step st (Change 0 "hello") = Some st'
    /\ textboxes st' !! 0 = Some (mkTextbox "textbox-7" 120 80 "hello" true)
    /\ (forall j tb', textboxes st !! j = Some tb' -> id tb' <> "textbox-7" ->
                      textboxes st' !! j = Some tb')
    /\ (forall j tb', textboxes st !! j = Some tb' -> id tb' = "textbox-7" ->
                      textboxes st' !! j
                      = Some (mkTextbox (id tb') (x tb') (y tb') "hello"
                                (isEditing tb')))
    /\ (NoDup (ids st) ->
        forall j, j <> 0 -> textboxes st' !! j = textboxes st !! j)
    /\ length (textboxes st') = 2
    /\ isTextboxMode st' = false
    /\ dragState st' = None
    /\ isTabPressed st' = false.
Proof.
  intros tb st.
  exact (change_stores_field_value st 0 tb "hello" eq_refl eq_refl).
Defined.

(** ** Committing an edit *)

Lemma handleTextChange_lookup (i : string) (t : string) (tbs : list Textbox)
    (j : nat) (tb : Textbox) :
  tbs !! j = Some tb ->
  id tb = i ->
  handleTextChange i t tbs !! j = Some (mkTextbox (id tb) (x tb) (y tb) t false).
Proof.
  intros Hj Hid. unfold handleTextChange.
  rewrite (lookup_update_by_id
             (fun b => with_isEditing (with_text b t) false) i tbs j tb Hj).
  subst i. by rewrite String.eqb_refl.
Qed.

(** C6, as stated, fails: the blur handler tests the new focus target with
    [matches('button')], so focus moving to any button, not only to the
    delete control, leaves the box uncommitted. *)
Lemma blur_onto_other_button_does_not_commit :
  let tb := mkTextbox "textbox-7" 120 80 "" true in
  let st := mkState [tb] false None false [] in
  (forall k, OtherElement "button" <> DeleteControl k)
  /\ step st (Blur 0 (Some (OtherElement "button")) "hello") = Some st
  /\ textboxes st !! 0 = Some (mkTextbox "textbox-7" 120 80 "" true).
Proof. repeat split. intros k. discriminate. Qed.

(** C6, amended.  For a box in editing state:
    - losing focus to no element or to an element that is not a button
      stores the field's value as the text of the box and ends editing;
      losing focus to a button changes nothing;
    - Enter without Shift cancels the default action and ends editing, the
      text of the box being the value the field shows (the field is
      controlled by the stored text);
    - Shift+Enter changes nothing and does not cancel the default action, so
      the field receives a line feed, which the change event that follows
      stores while the box stays in editing state. *)
Theorem commit_on_blur_or_enter (st : State) (i : nat) (tb : Textbox)
    (v : string) :
  textboxes st !! i = Some tb ->
  isEditing tb = true ->
  (forall rt, from_option matches_button false rt = false ->
     exists st',
       step st (Blur i rt v) = Some st'
       /\ textboxes st' !! i = Some (mkTextbox (id tb) (x tb) (y tb) v false))
  /\ (forall rt, from_option matches_button false rt = true ->
        step st (Blur i rt v) = Some st)
  /\ (forall e, key e = "Enter" -> shiftKey e = false -> text tb = v ->
        snd (textarea_onKeyDown tb e v st) = true
        /\ exists st',
             step st (FieldKeyDown i e v) = Some st'
             /\ textboxes st' !! i
                = Some (mkTextbox (id tb) (x tb) (y tb) v false))
  /\ (forall e caret, key e = "Enter" -> shiftKey e = true ->
        textarea_onKeyDown tb e v st = (st, false)
        /\ exists st',
             step st (Change i (insert_newline caret v)) = Some st'
             /\ textboxes st' !! i
                = Some (mkTextbox (id tb) (x tb) (y tb)
                          (insert_newline caret v) true)).
Proof.
  intros Hi Hed.
  pose proof (target_Some st i Field tb Hi (editing_renders_all tb Field Hed))
    as Ht.
  repeat apply conj.
  - intros rt Hrt. eexists. split.
    + unfold step. cbn [dispatch]. rewrite Ht. cbn. reflexivity.
    + rewrite rebind_keys_textboxes. unfold textarea_onBlur. rewrite Hrt.
      cbn. by apply handleTextChange_lookup.
  - intros rt Hrt. unfold step. cbn [dispatch]. rewrite Ht. cbn.
    unfold textarea_onBlur. rewrite Hrt. cbn.
    by rewrite rebind_keys_same_mode.
  - intros e Hk Hs Hv. unfold textarea_onKeyDown. rewrite Hk, Hs. cbn.
    split; [done|]. eexists. split.
    + unfold step. cbn [dispatch]. rewrite Ht. cbn.
      unfold textarea_onKeyDown. rewrite Hk, Hs. cbn. reflexivity.
    + rewrite rebind_keys_textboxes, handleKeyDown_textboxes. cbn.
      rewrite (lookup_update_by_id (fun b => with_isEditing b false)
                 (id tb) _ i tb Hi).
      rewrite String.eqb_refl. unfold with_isEditing. by rewrite Hv.
  - intros e caret Hk Hs. unfold textarea_onKeyDown. rewrite Hk, Hs. cbn.
    split; [done|].
    destruct (step_Change st i tb (insert_newline caret v) Hi Hed)
      as [Hstep Hlook].
    by eexists.
Qed.

Lemma commit_on_blur_or_enter_witness :
  let tb := mkTextbox "textbox-7" 120 80 "hello" true in
  let st := mkState [tb] false None false [] in
  textboxes st !! 0 = Some tb
  /\ isEditing tb = true
  /\ exists st',
       step st (Blur 0 None "hello") = Some st'
       /\ textboxes st' !! 0 = Some (mkTextbox "textbox-7" 120 80 "hello" false).
Proof.
  intros tb st. split; [reflexivity|]. split; [reflexivity|].
  exact (proj1 (commit_on_blur_or_enter st 0 tb "hello" eq_refl eq_refl)
           None eq_refl).
Defined.

(** ** Deleting a box *)

Lemma filter_other_ids (i : string) (tbs : list Textbox) :
  filter (fun b => negb (String.eqb (id b) i)) tbs
  = filter (fun b => id b <> i) tbs.
Proof.
  apply list_filter_iff. intros b.
  destruct (String.eqb_spec (id b) i) as [Heq|Hne]; cbn; naive_solver.
Qed.

Lemma filter_absent_id (i : string) (tbs : list Textbox) :
  i ∉ id <$> tbs -> filter (fun b => id b <> i) tbs = tbs.
Proof.
  induction tbs as [|b tbs IH]; [done|].
  rewrite fmap_cons, not_elem_of_cons. intros [Hne Hnot].
  rewrite filter_cons_True by congruence. by rewrite IH.
Qed.

(** With distinct ids, removing the id of a box of the collection removes one
    box. *)
Lemma filter_unique_id_length (tbs : list Textbox) (j : nat) (tb : Textbox) :
  NoDup (id <$> tbs) ->
  tbs !! j = Some tb ->
  S (length (filter (fun b => id b <> id tb) tbs)) = length tbs.
Proof.
  revert j. induction tbs as [|b tbs IH]; intros j Hnd Hj; [done|].
  rewrite fmap_cons in Hnd. apply NoDup_cons in Hnd as [Hb Hnd].
  destruct j as [|j]; cbn in Hj.
  - injection Hj as ->.
    rewrite filter_cons_False by (intros H; by apply H).
    by rewrite filter_absent_id.
  - assert (id b <> id tb) as Hne.
    { intros Heq. apply Hb. rewrite Heq.
      apply list_elem_of_fmap. exists tb. split; [done|].
      by eapply list_elem_of_lookup_2. }
    rewrite filter_cons_True by done. cbn. f_equal. by eapply IH.
Qed.

(** C7, as stated, fails: a box that is not being edited renders no delete
    control (the control is inside the editing branch of the conditional
    render), so the deletion is not available in that state. *)
Lemma delete_control_absent_when_not_editing :
  let tb := mkTextbox "textbox-7" 120 80 "hello" false in
  let st := mkState [tb] false None false [] in
  textboxes st !! 0 = Some tb
  /\ rendered_parts tb = [Box]
  /\ step st (DeleteClick 0) = None.
Proof. done. Qed.

(** C7, amended.  The delete control exists only while the box is in editing
    state.  Activating it removes the boxes with the id of that box, keeps
    every box with another id as it was and in the same order, and changes
    nothing else; when no two boxes share an id, exactly one box is
    removed. *)
Theorem delete_removes_that_id (st : State) (i : nat) (tb : Textbox) :
  textboxes st !! i = Some tb ->
  (isEditing tb = false -> step st (DeleteClick i) = None)
  /\ (isEditing tb = true ->
      exists st',
        step st (DeleteClick i) = Some st'
        /\ textboxes st' = filter (fun b => id b <> id tb) (textboxes st)
        /\ (forall b, b ∈ textboxes st' <-> b ∈ textboxes st /\ id b <> id tb)
        /\ (NoDup (ids st) ->
            S (length (textboxes st')) = length (textboxes st))
        /\ isTextboxMode st' = isTextboxMode st
        /\ dragState st' = dragState st
        /\ isTabPressed st' = isTabPressed st).
Proof.
  intros Hi. split.
  - intros Hed. unfold step. cbn [dispatch]. unfold target. rewrite Hi.
    unfold is_rendered, rendered_parts. by rewrite Hed.
  - intros Hed. exists (delete_onClick tb st).
    assert (textboxes (delete_onClick tb st)
            = filter (fun b => id b <> id tb) (textboxes st)) as Hfilter.
    { cbn. apply filter_other_ids. }
    split.
    { unfold step. cbn [dispatch].
      rewrite (target_Some st i DeleteButton tb Hi
                 (editing_renders_all tb DeleteButton Hed)).
      cbn. by rewrite rebind_keys_same_mode. }
    split; [exact Hfilter|]. rewrite Hfilter.
    split; [|split; [|done]].
    + intros b. rewrite list_elem_of_filter. tauto.
    + intros Hnd. by eapply filter_unique_id_length.
Qed.

Lemma delete_removes_that_id_witness :
  let a := mkTextbox "textbox-7" 120 80 "hello" true in
  let b := mkTextbox "textbox-9" 5 5 "other" false in
  let st := mkState [a; b] false None false [] in
  textboxes st !! 0 = Some a
  /\ isEditing a = true
  /\ exists st',
       step st (DeleteClick 0) = Some st'
       /\ textboxes st' = filter (fun c => id c <> id a) (textboxes st)
       /\ (forall c, c ∈ textboxes st' <-> c ∈ textboxes st /\ id c <> id a)
       /\ (NoDup (ids st) -> S (length (textboxes st')) = length (textboxes st))
       /\ isTextboxMode st' = isTextboxMode st
       /\ dragState st' = dragState st
       /\ isTabPressed st' = isTabPressed st.
Proof.
  intros a b st. split; [reflexivity|]. split; [reflexivity|].
  exact (proj2 (delete_removes_that_id st 0 a eq_refl) eq_refl).
Defined.

(** ** Placement *)



(** ** Identifiers *)

Lemma textbox_id_inj (s t : Z) : textbox_id s = textbox_id t -> s = t.
Proof.
  unfold textbox_id. intros H. apply (inj pretty). revert H.
  generalize (pretty s) (pretty t). intros a b H. cbn in H. by injection H.
Qed.

#[local] Instance textbox_id_Inj : Inj (=) (=) textbox_id.
Proof. intros s t. apply textbox_id_inj. Qed.

(** What one event does to the list of ids: a placement click appends the id
    made from its clock reading, a pointer move during a drag writes back
    the ids of the boxes its listener closed over, any other event keeps or
    removes ids.  The listeners close over the boxes of the new render or
    keep those they had. *)
Lemma step_ids (st st' : State) (ev : Event) :
  step st ev = Some st' ->
  match ev with
  | OverlayClick w _ => ids st' = ids st ++ [textbox_id (now w)]
  | MouseMove _ =>
      ids st' = match dragState st with
                | Some _ => listener_ids st
                | None => ids st
                end
  | _ => ids st' `sublist_of` ids st
  end
  /\ (listenerTextboxes st' = listenerTextboxes st
      \/ listenerTextboxes st' = textboxes st').
Proof.
  unfold step. destruct (dispatch st ev) as [st1|] eqn:Hd; [|done].
  cbn. intros [= <-]. split.
  - unfold ids. rewrite relisten_textboxes, rebind_keys_textboxes.
    destruct ev; cbn in Hd.
    + injection Hd as <-. by rewrite handleKeyDown_textboxes.
    + injection Hd as <-. by rewrite handleKeyUp_textboxes.
    + injection Hd as <-. unfold handleMouseMove. cbn.
      destruct (dragState st) as [d|]; [|done]. cbn.
      by rewrite ids_update_by_id.
    + injection Hd as <-. by destruct (dragState st).
    + destruct (isTextboxMode st) eqn:Hm; [|done]. injection Hd as <-.
      unfold handleOverlayClick. rewrite Hm. cbn. by rewrite fmap_app.
    + destruct (target st index p) as [tb|]; [|done]. cbn in Hd.
      injection Hd as <-. by destruct p.
    + destruct (target st index Box) as [tb|]; [|done]. cbn in Hd.
      injection Hd as <-. cbn. by rewrite ids_update_by_id.
    + destruct (target st index Field) as [tb|]; [|done]. cbn in Hd.
      injection Hd as <-. cbn. by rewrite ids_update_by_id.
    + destruct (target st index Field) as [tb|]; [|done]. cbn in Hd.
      injection Hd as <-. unfold textarea_onBlur, handleTextChange.
      destruct (negb _); [|done]. cbn. by rewrite ids_update_by_id.
    + destruct (target st index Field) as [tb|]; [|done]. cbn in Hd.
      injection Hd as <-. rewrite handleKeyDown_textboxes.
      unfold textarea_onKeyDown. destruct (_ && _); [|done]. cbn.
      by rewrite ids_update_by_id.
    + destruct (target st index DeleteButton) as [tb|]; [|done]. cbn in Hd.
      injection Hd as <-. cbn. apply fmap_sublist, sublist_filter.
  - rewrite relisten_listener, relisten_textboxes, rebind_keys_listener.
    destruct (sets_dragState st ev) eqn:Hs; [by right|]. left.
    destruct ev; cbn in Hd, Hs; try discriminate.
    + injection Hd as <-. unfold handleKeyDown.
      repeat match goal with |- context [if ?b then _ else _] => destruct b end;
        reflexivity.
    + injection Hd as <-. unfold handleKeyUp. by destruct (String.eqb _ _).
    + injection Hd as <-. destruct (dragState st) as [d|]; [|done].
      by rewrite bool_decide_eq_false in Hs; destruct Hs.
    + injection Hd as <-. by destruct (dragState st).
    + destruct (isTextboxMode st) eqn:Hm; [|done]. injection Hd as <-.
      unfold handleOverlayClick. by rewrite Hm.
    + destruct (target st index p) as [tb|]; [|done]. cbn in Hd.
      injection Hd as <-. by destruct p.
    + destruct (target st index Box) as [tb|]; [|done]. cbn in Hd.
      by injection Hd as <-.
    + destruct (target st index Field) as [tb|]; [|done]. cbn in Hd.
      by injection Hd as <-.
    + destruct (target st index Field) as [tb|]; [|done]. cbn in Hd.
      injection Hd as <-. unfold textarea_onBlur. by destruct (negb _).
    + destruct (target st index Field) as [tb|]; [|done]. cbn in Hd.
      injection Hd as <-. unfold textarea_onKeyDown, handleKeyDown.
      repeat match goal with |- context [if ?b then _ else _] => destruct b end;
        reflexivity.
    + destruct (target st index DeleteButton) as [tb|]; [|done]. cbn in Hd.
      by injection Hd as <-.
Qed.

(** The ids of the boxes, and of the boxes the drag listeners closed over,
    stay within the ids they started from followed by the ids of the
    placement clicks, in that order. *)
Lemma run_ids_within (evs : list Event) (st st' : State)
    (base : list string) :
  run st evs = Some st' ->
  ids st `sublist_of` base ->
  listener_ids st `sublist_of` base ->
  ids st' `sublist_of` base ++ (textbox_id <$> click_times evs)
  /\ listener_ids st' `sublist_of` base ++ (textbox_id <$> click_times evs).
Proof.
  revert st base.
  induction evs as [|ev evs IH]; intros st base Hrun Hb Hl.
  { cbn in Hrun. injection Hrun as <-. cbn. by rewrite app_nil_r. }
  cbn in Hrun. destruct (step st ev) as [st1|] eqn:Hstep; [|done].
  destruct (step_ids st st1 ev Hstep) as [Hids Hlis].
  assert (forall b1, ids st1 `sublist_of` b1 -> base `sublist_of` b1 ->
            listener_ids st1 `sublist_of` b1) as Hl1.
  { intros b1 H1 Hbb. unfold listener_ids.
    destruct Hlis as [->| ->]; [|exact H1].
    by etrans. }
  destruct ev;
    try (change (click_times (_ :: evs)) with (click_times evs);
         assert (ids st1 `sublist_of` base) as Hb1 by (by etrans);
         exact (IH st1 base Hrun Hb1 (Hl1 base Hb1 (reflexivity _)))).
  - change (click_times (_ :: evs)) with (click_times evs).
    assert (ids st1 `sublist_of` base) as Hb1
        by (rewrite Hids; by destruct (dragState st)).
    exact (IH st1 base Hrun Hb1 (Hl1 base Hb1 (reflexivity _))).
  - change (click_times (_ :: evs)) with (now w :: click_times evs).
    rewrite fmap_cons, (cons_middle _ base), app_assoc.
    assert (ids st1 `sublist_of` base ++ [textbox_id (now w)]) as Hb1
        by (rewrite Hids; by apply sublist_app).
    apply (IH st1 _ Hrun Hb1). apply Hl1; [exact Hb1|].
    by apply sublist_inserts_r.
Qed.

Lemma run_ids_NoDup (evs : list Event) (st' : State) :
  run initial evs = Some st' ->
  NoDup (click_times evs) ->
  NoDup (ids st') /\ NoDup (listener_ids st').
Proof.
  intros Hrun Ht.
  destruct (run_ids_within evs initial st' [] Hrun) as [Hi Hl]; [done|done|].
  cbn in Hi, Hl.
  split; eapply sublist_NoDup; try eassumption; by apply (NoDup_fmap_2 _).
Qed.

(** C9, as stated, fails: the id is made from the clock reading alone, so two
    placement clicks that read the same millisecond create two boxes with the
    same id. *)
Lemma same_millisecond_same_id :
  let tab := mkKey "Tab" "Tab" false in
  let t := mkKey "KeyT" "t" false in
  let w := mkWindow 0 0 1700000000000 in
  (ids <$> run initial
     [KeyDown tab; KeyDown t; OverlayClick w (mkMouse 10 10);
      KeyDown tab; KeyDown t; OverlayClick w (mkMouse 50 50)])
  = Some ["textbox-1700000000000"; "textbox-1700000000000"]
  /\ ~ NoDup ["textbox-1700000000000"; "textbox-1700000000000"].
Proof.
  split; [by vm_compute|].
  intros H. apply NoDup_cons in H as [H _]. apply H. left.
Qed.

(** C9, amended.  Starting from the empty collection, after any sequence of
    events the ids of the boxes are pairwise distinct provided the clock
    readings of the placement clicks are pairwise distinct. *)
Theorem ids_distinct_when_clock_distinct (evs : list Event) (st' : State) :
  run initial evs = Some st' ->
  NoDup (click_times evs) ->
  NoDup (ids st').
Proof. intros Hrun Ht. by apply (run_ids_NoDup evs). Qed.

Lemma ids_distinct_when_clock_distinct_witness :
  let tab := mkKey "Tab" "Tab" false in
  let t := mkKey "KeyT" "t" false in
  let evs :=
    [KeyDown tab; KeyDown t; OverlayClick (mkWindow 0 0 1700000000000) (mkMouse 10 10);
     KeyDown tab; KeyDown t; OverlayClick (mkWindow 0 0 1700000000250) (mkMouse 50 50)] in
  exists st',
    run initial evs = Some st'
    /\ NoDup (click_times evs)
    /\ ids st' = ["textbox-1700000000000"; "textbox-1700000000250"]
    /\ NoDup (ids st').
Proof.
  intros tab t evs.
  assert (NoDup (click_times evs)) as Ht.
  { cbn. apply NoDup_cons. split; [|apply NoDup_singleton].
    intros H%list_elem_of_singleton. discriminate. }
  destruct (run initial evs) as [st'|] eqn:Hrun; [|by vm_compute in Hrun].
  exists st'. split; [reflexivity|]. split; [exact Ht|]. split.
  - vm_compute in Hrun. by injection Hrun as <-.
  - exact (ids_distinct_when_clock_distinct evs st' Hrun Ht).
Defined.

(** ** Dragging *)

Lemma run_app (st : State) (evs1 evs2 : list Event) :
  run st (evs1 ++ evs2) = run st evs1 ≫= fun st1 => run st1 evs2.
Proof.
  revert st. induction evs1 as [|ev evs1 IH]; intros st; [done|].
  cbn. destruct (step st ev) as [st1|]; [apply IH|done].
Qed.

Lemma translate_zero (i : string) (tbs : list Textbox) :
  translate i 0 0 tbs = tbs.
Proof.
  unfold translate. rewrite <- (list_fmap_id tbs) at 2.
  apply list_fmap_ext. intros j b _. cbn.
  destruct (String.eqb _ _); [|done].
  rewrite !Z.add_0_r. apply with_pos_same.
Qed.

Lemma translate_translate (i : string) (a b c d : Z) (tbs : list Textbox) :
  translate i c d (translate i a b tbs) = translate i (a + c) (b + d) tbs.
Proof.
  unfold translate. rewrite <- list_fmap_compose.
  apply list_fmap_ext. intros j tb _. cbn.
  destruct (String.eqb (id tb) i) eqn:Hid; cbn; rewrite Hid; [|done].
  unfold with_pos. cbn. by rewrite !Z.add_assoc.
Qed.

Lemma translate_lookup (i : string) (dx dy : Z) (tbs : list Textbox)
    (j : nat) (b : Textbox) :
  tbs !! j = Some b ->
  translate i dx dy tbs !! j
  = Some (if String.eqb (id b) i
          then mkTextbox (id b) (x b + dx) (y b + dy) (text b) (isEditing b)
          else b).
Proof. intros Hj. unfold translate. by rewrite list_lookup_fmap, Hj. Qed.

(** One pointer move during a drag: the delta since the recorded pointer
    position is added to the dragged id, and the pointer position is
    recorded. *)
Lemma step_MouseMove_dragging (tbs seen : list Textbox) (m t : bool)
    (i : string) (px py : Z) (e : MouseEvent) :
  let moved := translate i (clientX e - px) (clientY e - py) seen in
  step (mkState tbs m (Some (mkDrag i px py)) t seen) (MouseMove e)
  = Some (mkState moved m (Some (mkDrag i (clientX e) (clientY e))) t moved).
Proof.
  unfold step. cbn. by rewrite rebind_keys_same_mode.
Qed.

Lemma run_moves (deltas : list (Z * Z)) (tbs : list Textbox) (m t : bool)
    (i : string) (px py : Z) :
  let moved := translate i (sum_dx deltas) (sum_dy deltas) tbs in
  run (mkState tbs m (Some (mkDrag i px py)) t tbs)
      (MouseMove <$> pointer_path px py deltas)
  = Some (mkState moved m
            (Some (mkDrag i (px + sum_dx deltas) (py + sum_dy deltas))) t
            moved).
Proof.
  revert tbs px py.
  induction deltas as [|[dx dy] deltas IH]; intros tbs px py.
  - cbn. by rewrite translate_zero, !Z.add_0_r.
  - cbn [pointer_path fmap list_fmap run].
    rewrite step_MouseMove_dragging. cbn [clientX clientY].
    rewrite IH, translate_translate. cbn [sum_dx sum_dy foldr fst snd].
    by rewrite !Z.add_simpl_l, !Z.add_assoc.
Qed.

(** C1, as stated, fails: the move handler translates every box whose id is
    that of the dragged box (lines 73-82), and two boxes placed in the same
    millisecond share their id.  Dragging the second of two such boxes by
    (30, 15) moves the first by (30, 15) as well. *)
Lemma drag_moves_box_with_same_id :
  let tab := mkKey "Tab" "Tab" false in
  let t := mkKey "KeyT" "t" false in
  let w := mkWindow 0 0 1700000000000 in
  let placed :=
    [KeyDown tab; KeyDown t; OverlayClick w (mkMouse 10 10);
     Blur 0 None "first";
     KeyDown tab; KeyDown t; OverlayClick w (mkMouse 50 50);
     Blur 1 None "second"] in
  let drag :=
    [MouseDown 1 Box (mkMouse 55 55); MouseMove (mkMouse 70 60);
     MouseMove (mkMouse 85 70); MouseUp] in
  (textboxes <$> run initial placed)
  = Some [mkTextbox "textbox-1700000000000" 10 10 "second" false;
          mkTextbox "textbox-1700000000000" 50 50 "second" false]
  /\ (textboxes <$> run initial (placed ++ drag))
     = Some [mkTextbox "textbox-1700000000000" 40 25 "second" false;
             mkTextbox "textbox-1700000000000" 80 65 "second" false].
Proof. split; by vm_compute. Qed.

(** C1, amended.  Pointer-down on a box that is not being edited begins a
    drag that records the id of the box and the pointer position (such a box
    has no delete control to press).  After N pointer moves by the deltas
    [(dx, dy)], the dragged box has moved by the sum of the deltas, and so
    has every box that shares its id; every box with another id is as it
    was, so every other box is unchanged when no two boxes share an id.  The
    recorded pointer position is the last one; pointer-up ends the drag and
    leaves the positions as they are. *)
Theorem drag_net_displacement (st : State) (i : nat) (tb : Textbox)
    (e0 : MouseEvent) (deltas : list (Z * Z)) :
  textboxes st !! i = Some tb ->
  isEditing tb = false ->
  let moves := MouseMove <$> pointer_path (clientX e0) (clientY e0) deltas in
  let moved := translate (id tb) (sum_dx deltas) (sum_dy deltas) (textboxes st) in
  step st (MouseDown i Box e0)
  = Some (mkState (textboxes st) (isTextboxMode st)
            (Some (mkDrag (id tb) (clientX e0) (clientY e0)))
            (isTabPressed st) (textboxes st))
  /\ step st (MouseDown i DeleteButton e0) = None
  /\ run st (MouseDown i Box e0 :: moves)
     = Some (mkState moved (isTextboxMode st)
               (Some (mkDrag (id tb) (clientX e0 + sum_dx deltas)
                        (clientY e0 + sum_dy deltas)))
               (isTabPressed st) moved)
  /\ run st (MouseDown i Box e0 :: moves ++ [MouseUp])
     = Some (mkState moved (isTextboxMode st) None (isTabPressed st) moved)
  /\ moved !! i
     = Some (mkTextbox (id tb) (x tb + sum_dx deltas) (y tb + sum_dy deltas)
               (text tb) (isEditing tb))
  /\ (forall j b, textboxes st !! j = Some b -> id b <> id tb ->
                  moved !! j = Some b)
  /\ (forall j b, textboxes st !! j = Some b -> id b = id tb ->
                  moved !! j
                  = Some (mkTextbox (id b) (x b + sum_dx deltas)
                            (y b + sum_dy deltas) (text b) (isEditing b)))
  /\ (NoDup (ids st) -> forall j, j <> i -> moved !! j = textboxes st !! j).
Proof.
  intros Hi Hed moves moved.
  assert (forall j b, textboxes st !! j = Some b -> id b <> id tb ->
                      moved !! j = Some b) as Hother.
  { intros j b Hj Hne. unfold moved. rewrite (translate_lookup _ _ _ _ j b Hj).
    apply String.eqb_neq in Hne. by rewrite Hne. }
  assert (forall j b, textboxes st !! j = Some b -> id b = id tb ->
                      moved !! j
                      = Some (mkTextbox (id b) (x b + sum_dx deltas)
                                (y b + sum_dy deltas) (text b) (isEditing b)))
    as Hsame.
  { intros j b Hj Heq. unfold moved. rewrite (translate_lookup _ _ _ _ j b Hj).
    apply String.eqb_eq in Heq. by rewrite Heq. }
  assert (step st (MouseDown i Box e0)
          = Some (mkState (textboxes st) (isTextboxMode st)
                    (Some (mkDrag (id tb) (clientX e0) (clientY e0)))
                    (isTabPressed st) (textboxes st))) as Hdown.
  { unfold step. cbn [dispatch].
    rewrite (target_Some st i Box tb Hi (box_always_rendered tb)). cbn.
    by rewrite rebind_keys_same_mode. }
  assert (run st (MouseDown i Box e0 :: moves)
          = Some (mkState moved (isTextboxMode st)
                    (Some (mkDrag (id tb) (clientX e0 + sum_dx deltas)
                             (clientY e0 + sum_dy deltas)))
                    (isTabPressed st) moved)) as Hmoves.
  { cbn [run]. rewrite Hdown. apply run_moves. }
  repeat apply conj.
  - exact Hdown.
  - unfold step. cbn [dispatch]. unfold target. rewrite Hi.
    unfold is_rendered, rendered_parts. by rewrite Hed.
  - exact Hmoves.
  - rewrite app_comm_cons, run_app, Hmoves. cbn.
    unfold step. cbn. by rewrite rebind_keys_same_mode.
  - by apply Hsame.
  - exact Hother.
  - exact Hsame.
  - intros Hnd j Hne. destruct (textboxes st !! j) as [b|] eqn:Hj.
    + apply Hother; [done|]. by eapply other_index_other_id.
    + unfold moved, translate. by rewrite list_lookup_fmap, Hj.
Qed.

Lemma drag_net_displacement_witness :
  let a := mkTextbox "textbox-7" 120 80 "hello" false in
  let b := mkTextbox "textbox-9" 5 5 "other" false in
  let moved := [mkTextbox "textbox-7" 150 95 "hello" false; b] in
  let st := mkState [a; b] false None false [] in
  textboxes st !! 0 = Some a
  /\ isEditing a = false
  /\ run st (MouseDown 0 Box (mkMouse 125 85)
             :: (MouseMove <$> [mkMouse 135 90; mkMouse 155 100]) ++ [MouseUp])
     = Some (mkState moved false None false moved).
Proof.
  intros a b moved st. split; [reflexivity|]. split; [reflexivity|].
  exact (proj1 (proj2 (proj2 (proj2
           (drag_net_displacement st 0 a (mkMouse 125 85)
              [(10, 5); (20, 10)]%Z eq_refl eq_refl))))).
Defined.

(** On a box in editing state, pointer-down on the delete control does not
    begin a drag, while pointer-down on the text field does. *)
Lemma mousedown_while_editing (st : State) (i : nat) (tb : Textbox)
    (e0 : MouseEvent) :
  textboxes st !! i = Some tb ->
  isEditing tb = true ->
  step st (MouseDown i DeleteButton e0) = Some st
  /\ step st (MouseDown i Field e0)
     = Some (set_listenerTextboxes
               (set_dragState st
                  (Some (mkDrag (id tb) (clientX e0) (clientY e0))))
               (textboxes st)).
Proof.
  intros Hi Hed. unfold step. cbn [dispatch].
  rewrite (target_Some st i DeleteButton tb Hi
             (editing_renders_all tb DeleteButton Hed)).
  rewrite (target_Some st i Field tb Hi (editing_renders_all tb Field Hed)).
  cbn. by rewrite !rebind_keys_same_mode.
Qed.

(** ** A session from placement to drag *)

(** Enter the mode with the chord, place a box at (120, 80), type "hello",
    press Enter, double-click the box, commit again by leaving the field,
    and drag the box by (30, 15). *)
Example place_type_commit_drag :
  let tab := mkKey "Tab" "Tab" false in
  let t := mkKey "KeyT" "t" false in
  let enter := mkKey "Enter" "Enter" false in
  run initial
    [KeyDown tab; KeyDown t; KeyUp t; KeyUp tab;
     OverlayClick (mkWindow 0 0 1700000000000) (mkMouse 120 80);
     Change 0 "hello";
     FieldKeyDown 0 enter "hello";
     DoubleClick 0;
     Blur 0 None "hello";
     MouseDown 0 Box (mkMouse 125 85);
     MouseMove (mkMouse 140 90);
     MouseMove (mkMouse 155 100);
     MouseUp]
  = Some (mkState [mkTextbox "textbox-1700000000000" 150 95 "hello" false]
            false None false
            [mkTextbox "textbox-1700000000000" 150 95 "hello" false]).
Proof. by vm_compute. Qed.

(** The Enter handler hands the stored text, not the value it was given, to
    the last [setTextboxes]; the two agree because the field is controlled
    by the stored text. *)
Remark enter_keeps_stored_text (st : State) (tb : Textbox) (e : KeyboardEvent)
    (v : string) :
  key e = "Enter" -> shiftKey e = false ->
  textboxes (textarea_onKeyDown tb e v st).1
  = (fun b => if String.eqb (id b) (id tb) then with_isEditing b false else b)
      <$> textboxes st.
Proof. intros Hk Hs. unfold textarea_onKeyDown. by rewrite Hk, Hs. Qed.

(** ** The mode chord and Escape *)

(** X1. Pressing Tab and then T flips textbox mode and leaves the boxes and
    the drag alone.  The flip makes the key bindings start over with Tab
    forgotten, so a further T without a new Tab key-down changes nothing. *)
Theorem chord_flips_mode_once (st : State) (tab t : KeyboardEvent) :
  code tab = "Tab" ->
  code t = "KeyT" ->
  key t <> "Escape" ->
  exists st1,
    run st [KeyDown tab; KeyDown t] = Some st1
    /\ isTextboxMode st1 = negb (isTextboxMode st)
    /\ isTabPressed st1 = false
    /\ textboxes st1 = textboxes st
    /\ dragState st1 = dragState st
    /\ step st1 (KeyDown t) = Some st1.
Proof.
  intros Htab Ht Hkey. apply String.eqb_neq in Hkey.
  destruct tab as [c1 k1 s1], t as [c2 k2 s2], st as [tbs m d tp seen].
  cbn in *. subst.
  exists (mkState tbs (negb m) d false seen). split.
  - unfold step, rebind_keys, handleKeyDown. cbn. rewrite Hkey.
    destruct m; reflexivity.
  - repeat split.
    unfold step, rebind_keys, handleKeyDown. cbn. rewrite Hkey.
    by destruct m.
Qed.

Lemma chord_flips_mode_once_witness :
  let st := mkState [mkTextbox "textbox-7" 1 2 "a" false] false None false [] in
  exists st1,
    run st [KeyDown (mkKey "Tab" "Tab" false); KeyDown (mkKey "KeyT" "t" false)]
    = Some st1
    /\ isTextboxMode st1 = true
    /\ isTabPressed st1 = false
    /\ textboxes st1 = textboxes st
    /\ dragState st1 = dragState st
    /\ step st1 (KeyDown (mkKey "KeyT" "t" false)) = Some st1.
Proof.
  intros st.
  assert (key (mkKey "KeyT" "t" false) <> "Escape") as Hk by discriminate.
  exact (chord_flips_mode_once st (mkKey "Tab" "Tab" false)
           (mkKey "KeyT" "t" false) eq_refl eq_refl Hk).
Defined.


(** ** Double-click *)

Lemma unique_id_box (tbs : list Textbox) (i j : nat) (tb b : Textbox) :
  NoDup (id <$> tbs) ->
  tbs !! i = Some tb ->
  tbs !! j = Some b ->
  id b = id tb ->
  b = tb.
Proof.
  intros Hnd Hi Hj Heq.
  destruct (decide (j = i)) as [->|Hne]; [congruence|].
  by destruct (other_index_other_id tbs i j tb b Hnd Hi Hj Hne).
Qed.

(** X3. Double-clicking a box puts it in editing state with its text and
    position as they were and changes no box with another id.  When no two
    boxes share an id and the box was not being edited, leaving the field
    again without typing (focus going to no button) gives back the state
    from before the double-click. *)
Theorem double_click_edits_in_place (st : State) (i : nat) (tb : Textbox) :
  textboxes st !! i = Some tb ->
  exists st',
    step st (DoubleClick i) = Some st'
    /\ textboxes st' !! i
       = Some (mkTextbox (id tb) (x tb) (y tb) (text tb) true)
    /\ (forall j b, textboxes st !! j = Some b -> id b <> id tb ->
                    textboxes st' !! j = Some b)
    /\ (NoDup (ids st) -> isEditing tb = false ->
        step st' (Blur i None (text tb)) = Some st).
Proof.
  intros Hi. exists (box_onDoubleClick tb st).
  assert (step st (DoubleClick i) = Some (box_onDoubleClick tb st)) as Hstep.
  { unfold step. cbn [dispatch].
    rewrite (target_Some st i Box tb Hi (box_always_rendered tb)). cbn.
    by rewrite rebind_keys_same_mode. }
  assert (textboxes (box_onDoubleClick tb st) !! i
          = Some (mkTextbox (id tb) (x tb) (y tb) (text tb) true)) as Hlook.
  { cbn. rewrite (lookup_update_by_id (fun b => with_isEditing b true)
                    (id tb) _ i tb Hi).
    by rewrite String.eqb_refl. }
  split; [exact Hstep|]. split; [exact Hlook|]. split.
  - intros j b Hj Hne. cbn.
    rewrite (lookup_update_by_id (fun b => with_isEditing b true)
               (id tb) _ j b Hj).
    apply String.eqb_neq in Hne. by rewrite Hne.
  - intros Hnd Hed. unfold step. cbn [dispatch].
    rewrite (target_Some _ i Field _ Hlook).
    2:{ by apply editing_renders_all. }
    cbn [mbind option_bind fmap option_fmap option_map].
    unfold textarea_onBlur. cbn [from_option negb].
    rewrite rebind_keys_same_mode by done.
    f_equal. destruct st as [tbs m d tp seen]. unfold set_textboxes. cbn in *.
    f_equal. unfold handleTextChange. rewrite <- list_fmap_compose.
    rewrite <- (list_fmap_id tbs) at 2. apply list_fmap_ext.
    intros j b Hj. cbn.
    destruct (String.eqb_spec (id b) (id tb)) as [Heq|Hne]; cbn.
    + rewrite Heq, String.eqb_refl.
      rewrite (unique_id_box tbs i j tb b Hnd Hi Hj Heq).
      destruct tb; cbn in *. by subst.
    + apply String.eqb_neq in Hne. by rewrite Hne.
Qed.

Lemma double_click_edits_in_place_witness :
  let a := mkTextbox "textbox-7" 120 80 "hello" false in
  let b := mkTextbox "textbox-9" 5 5 "other" true in
  let st := mkState [a; b] false None false [] in
  textboxes st !! 0 = Some a
  /\ NoDup (ids st)
  /\ exists st',
       step st (DoubleClick 0) = Some st'
       /\ textboxes st' !! 0 = Some (mkTextbox "textbox-7" 120 80 "hello" true)
       /\ step st' (Blur 0 None "hello") = Some st.
Proof.
  intros a b st.
  assert (NoDup (ids st)) as Hnd.
  { cbn. apply NoDup_cons. split; [|apply NoDup_singleton].
    intros H%list_elem_of_singleton. discriminate. }
  split; [reflexivity|]. split; [exact Hnd|].
  destruct (double_click_edits_in_place st 0 a eq_refl)
    as (st' & Hs & Hl & _ & Hback).
  exists st'. split; [exact Hs|]. split; [exact Hl|]. exact (Hback Hnd eq_refl).
Defined.

(** ** The box follows the pointer *)

Lemma run_moves_to (es : list MouseEvent) (tbs : list Textbox) (m t : bool)
    (i : string) (px py : Z) :
  let moved := translate i (clientX (end_point (mkMouse px py) es) - px)
                 (clientY (end_point (mkMouse px py) es) - py) tbs in
  run (mkState tbs m (Some (mkDrag i px py)) t tbs) (MouseMove <$> es)
  = Some (mkState moved m
            (Some (mkDrag i (clientX (end_point (mkMouse px py) es))
                     (clientY (end_point (mkMouse px py) es))))
            t moved).
Proof.
  revert tbs px py. induction es as [|e es IH]; intros tbs px py.
  - unfold end_point. cbn. by rewrite !Z.sub_diag, translate_zero.
  - cbn [fmap list_fmap run]. rewrite step_MouseMove_dragging, IH.
    rewrite translate_translate.
    assert (end_point (mkMouse (clientX e) (clientY e)) es
            = end_point (mkMouse px py) (e :: es)) as ->.
    { unfold end_point. rewrite last_cons. destruct (last es); [done|].
      by destruct e. }
    do 3 f_equal; lia.
Qed.

(** X4. However the pointer travels during a drag, the dragged box ends up
    displaced by exactly the displacement of the pointer between pointer-down
    and its last position; in particular a drag that ends where it began
    leaves every box where it was. *)
Theorem drag_follows_pointer (st : State) (i : nat) (tb : Textbox)
    (e0 : MouseEvent) (es : list MouseEvent) :
  textboxes st !! i = Some tb ->
  let e := end_point e0 es in
  let moved := translate (id tb) (clientX e - clientX e0)
                 (clientY e - clientY e0) (textboxes st) in
  run st (MouseDown i Box e0 :: (MouseMove <$> es) ++ [MouseUp])
  = Some (mkState moved (isTextboxMode st) None (isTabPressed st) moved)
  /\ (clientX e = clientX e0 -> clientY e = clientY e0 ->
      run st (MouseDown i Box e0 :: (MouseMove <$> es) ++ [MouseUp])
      = Some (mkState (textboxes st) (isTextboxMode st) None (isTabPressed st)
                (textboxes st))).
Proof.
  intros Hi e moved.
  assert (run st (MouseDown i Box e0 :: (MouseMove <$> es) ++ [MouseUp])
          = Some (mkState moved (isTextboxMode st) None (isTabPressed st)
                    moved)) as Hrun.
  { cbn [run]. unfold step at 1. cbn [dispatch].
    rewrite (target_Some st i Box tb Hi (box_always_rendered tb)). cbn.
    rewrite rebind_keys_same_mode by done.
    unfold box_onMouseDown, set_dragState, relisten, set_listenerTextboxes.
    cbn. rewrite run_app, run_moves_to.
    assert (mkMouse (clientX e0) (clientY e0) = e0) as -> by (by destruct e0).
    fold e. cbn. unfold step. cbn. by rewrite rebind_keys_same_mode. }
  split; [exact Hrun|].
  intros Hx Hy. rewrite Hrun. unfold moved.
  rewrite Hx, Hy, !Z.sub_diag. by rewrite translate_zero.
Qed.

Lemma drag_follows_pointer_witness :
  let a := mkTextbox "textbox-7" 120 80 "hello" false in
  let st := mkState [a] false None false [] in
  textboxes st !! 0 = Some a
  /\ run st (MouseDown 0 Box (mkMouse 125 85)
             :: (MouseMove <$> [mkMouse 300 10; mkMouse 155 100]) ++ [MouseUp])
     = Some (mkState [mkTextbox "textbox-7" 150 95 "hello" false]
               false None false
               [mkTextbox "textbox-7" 150 95 "hello" false]).
Proof.
  intros a st. split; [reflexivity|].
  exact (proj1 (drag_follows_pointer st 0 a (mkMouse 125 85)
                  [mkMouse 300 10; mkMouse 155 100] eq_refl)).
Defined.

(** ** Updates made while a drag is active *)



(** ** The collection over a whole session *)

(** X5. Editing, committing, double-clicking, pointer-down, pointer-up and
    key presses never add, remove, reorder or rename a box: an event other
    than a placement click, a delete click or a pointer move leaves the list
    of ids as it was. *)
Theorem only_place_delete_and_move_change_ids (st st' : State) (ev : Event) :
  step st ev = Some st' ->
  keeps_boxes ev = true ->
  ids st' = ids st /\ length (textboxes st') = length (textboxes st).
Proof.
  intros Hstep Hev.
  assert (ids st' = ids st) as Hids.
  { revert Hstep. unfold step.
    destruct (dispatch st ev) as [st1|] eqn:Hd; [|done].
    cbn. intros [= <-]. unfold ids.
    rewrite relisten_textboxes, rebind_keys_textboxes.
    destruct ev; try done; cbn in Hd.
    - injection Hd as <-. by rewrite handleKeyDown_textboxes.
    - injection Hd as <-. by rewrite handleKeyUp_textboxes.
    - injection Hd as <-. by destruct (dragState st).
    - destruct (target st index p) as [tb|]; [|done]. cbn in Hd.
      injection Hd as <-. by destruct p.
    - destruct (target st index Box) as [tb|]; [|done]. cbn in Hd.
      injection Hd as <-. cbn. by rewrite ids_update_by_id.
    - destruct (target st index Field) as [tb|]; [|done]. cbn in Hd.
      injection Hd as <-. cbn. by rewrite ids_update_by_id.
    - destruct (target st index Field) as [tb|]; [|done]. cbn in Hd.
      injection Hd as <-. unfold textarea_onBlur, handleTextChange.
      destruct (negb _); [|done]. cbn. by rewrite ids_update_by_id.
    - destruct (target st index Field) as [tb|]; [|done]. cbn in Hd.
      injection Hd as <-. rewrite handleKeyDown_textboxes.
      unfold textarea_onKeyDown. destruct (_ && _); [|done]. cbn.
      by rewrite ids_update_by_id. }
  split; [exact Hids|].
  unfold ids in Hids. apply (f_equal length) in Hids.
  by rewrite !length_fmap in Hids.
Qed.

Lemma only_place_delete_and_move_change_ids_witness :
  let a := mkTextbox "textbox-7" 120 80 "hello" true in
  let b := mkTextbox "textbox-9" 5 5 "other" false in
  let st := mkState [a; b] false None false [] in
  exists st',
    step st (Blur 0 None "bye") = Some st'
    /\ ids st' = ["textbox-7"; "textbox-9"]
    /\ length (textboxes st') = 2.
Proof.
  intros a b st. eexists. split; [reflexivity|].
  exact (only_place_delete_and_move_change_ids st _ (Blur 0 None "bye")
           eq_refl eq_refl).
Defined.

(** X6. After any session that starts with an empty collection, the ids of
    the boxes, in the order of the collection, are a subsequence of the ids
    made by the placement clicks in the order of the clicks: every box was
    placed by a click, and the collection keeps creation order. *)
Theorem boxes_in_creation_order (evs : list Event) (st' : State) :
  run initial evs = Some st' ->
  ids st' `sublist_of` (textbox_id <$> click_times evs).
Proof.
  intros Hrun.
  by destruct (run_ids_within evs initial st' [] Hrun) as [Hi _].
Qed.

Lemma boxes_in_creation_order_witness :
  let tab := mkKey "Tab" "Tab" false in
  let t := mkKey "KeyT" "t" false in
  let evs :=
    [KeyDown tab; KeyDown t; OverlayClick (mkWindow 0 0 100) (mkMouse 10 10);
     KeyDown tab; KeyDown t; OverlayClick (mkWindow 0 0 200) (mkMouse 50 50);
     KeyDown tab; KeyDown t; OverlayClick (mkWindow 0 0 300) (mkMouse 90 90);
     DeleteClick 1] in
  exists st',
    run initial evs = Some st'
    /\ ids st' = ["textbox-100"; "textbox-300"]
    /\ ids st' `sublist_of` ["textbox-100"; "textbox-200"; "textbox-300"].
Proof.
  intros tab t evs.
  destruct (run initial evs) as [st'|] eqn:Hrun; [|by vm_compute in Hrun].
  exists st'. split; [reflexivity|].
  pose proof (boxes_in_creation_order evs st' Hrun) as Hsub.
  vm_compute in Hrun. injection Hrun as <-. by split.
Defined.

Lemma handleKeyDown_mode_budget (e : KeyboardEvent) (s : State) :
  Nat.b2n (isTextboxMode (handleKeyDown e s))
  <= Nat.b2n (isTextboxMode s)
     + Nat.b2n (String.eqb (code e) "KeyT").
Proof.
  unfold handleKeyDown. destruct s as [tbs m d tp seen]. cbn.
  destruct (String.eqb (code e) "Tab"), tp, (String.eqb (code e) "KeyT"),
    (String.eqb (key e) "Escape" || String.eqb (code e) "Escape"), m;
    cbn; lia.
Qed.

Lemma step_mode_budget (st st' : State) (ev : Event) :
  step st ev = Some st' ->
  length (click_times [ev]) + Nat.b2n (isTextboxMode st')
  <= Nat.b2n (isTextboxMode st) + count_KeyT [ev].
Proof.
  unfold step. destruct (dispatch st ev) as [st1|] eqn:Hd; [|done].
  cbn [fmap option_fmap option_map]. intros [= <-]. rewrite relisten_mode.
  assert (isTextboxMode (rebind_keys st st1) = isTextboxMode st1) as ->.
  { unfold rebind_keys. by destruct (Bool.eqb _ _). }
  destruct ev; cbn in Hd; cbn [click_times count_KeyT length].
  - injection Hd as <-. pose proof (handleKeyDown_mode_budget e st). lia.
  - injection Hd as <-. unfold handleKeyUp.
    destruct (String.eqb _ _); cbn; lia.
  - injection Hd as <-. unfold handleMouseMove, set_textboxes.
    cbn [dragState]. destruct (dragState st); cbn; lia.
  - injection Hd as <-. destruct (dragState st); cbn; lia.
  - destruct (isTextboxMode st) eqn:Hm; [|done]. injection Hd as <-.
    unfold handleOverlayClick. rewrite Hm. cbn. lia.
  - destruct (target st index p); [|done]. cbn in Hd. injection Hd as <-.
    destruct p; cbn; lia.
  - destruct (target st index Box); [|done]. cbn in Hd. injection Hd as <-.
    cbn. lia.
  - destruct (target st index Field); [|done]. cbn in Hd. injection Hd as <-.
    cbn. lia.
  - destruct (target st index Field); [|done]. cbn in Hd. injection Hd as <-.
    unfold textarea_onBlur. destruct (negb _); cbn; lia.
  - destruct (target st index Field) as [tb|]; [|done]. cbn in Hd.
    injection Hd as <-.
    pose proof (handleKeyDown_mode_budget e (textarea_onKeyDown tb e value st).1) as Hkey.
    assert (isTextboxMode (textarea_onKeyDown tb e value st).1
            = isTextboxMode st) as Hm.
    { unfold textarea_onKeyDown. by destruct (_ && _). }
    rewrite Hm in Hkey. lia.
  - destruct (target st index DeleteButton); [|done]. cbn in Hd.
    injection Hd as <-. cbn. lia.
Qed.

Lemma run_mode_budget (evs : list Event) (st st' : State) :
  run st evs = Some st' ->
  length (click_times evs) + Nat.b2n (isTextboxMode st')
  <= Nat.b2n (isTextboxMode st) + count_KeyT evs.
Proof.
  revert st. induction evs as [|ev evs IH]; intros st Hrun.
  { cbn in Hrun. injection Hrun as <-. cbn. lia. }
  cbn in Hrun. destruct (step st ev) as [st1|] eqn:Hstep; [|done].
  pose proof (step_mode_budget st st1 ev Hstep) as H1.
  specialize (IH st1 Hrun).
  assert (length (click_times (ev :: evs))
          = length (click_times [ev]) + length (click_times evs)) as ->.
  { destruct ev; cbn; lia. }
  assert (count_KeyT (ev :: evs) = count_KeyT [ev] + count_KeyT evs) as ->.
  { destruct ev; cbn; lia. }
  lia.
Qed.

(** X7. Placement is single-shot: a placement click uses up the activation
    that made it possible.  In any session that starts with textbox mode off,
    the placement clicks, plus one if the mode is still on at the end, are
    at most as many as the T key-downs; so there are never more boxes than
    T key-downs. *)
Theorem one_placement_per_activation (evs : list Event) (st' : State) :
  run initial evs = Some st' ->
  length (click_times evs) + Nat.b2n (isTextboxMode st')
  <= count_KeyT evs
  /\ length (textboxes st') <= count_KeyT evs.
Proof.
  intros Hrun.
  pose proof (run_mode_budget evs initial st' Hrun) as Hb. cbn in Hb.
  split; [lia|].
  destruct (run_ids_within evs initial st' [] Hrun) as [Hs _]; [done|done|].
  apply sublist_length in Hs. unfold ids in Hs. cbn in Hs.
  rewrite !length_fmap in Hs. lia.
Qed.

Lemma one_placement_per_activation_witness :
  let tab := mkKey "Tab" "Tab" false in
  let t := mkKey "KeyT" "t" false in
  let evs :=
    [KeyDown tab; KeyDown t; OverlayClick (mkWindow 0 0 100) (mkMouse 10 10);
     KeyDown tab; KeyDown t] in
  exists st',
    run initial evs = Some st'
    /\ length (click_times evs) + Nat.b2n (isTextboxMode st') <= 2
    /\ length (textboxes st') <= 2
    /\ run st' [OverlayClick (mkWindow 0 0 200) (mkMouse 1 1);
                OverlayClick (mkWindow 0 0 300) (mkMouse 2 2)] = None.
Proof.
  intros tab t evs.
  destruct (run initial evs) as [st'|] eqn:Hrun; [|by vm_compute in Hrun].
  exists st'. split; [reflexivity|].
  destruct (one_placement_per_activation evs st' Hrun) as [H1 H2].
  split; [exact H1|]. split; [exact H2|].
  vm_compute in Hrun. by injection Hrun as <-.
Defined.

End TextboxFacts.

(** * Properties of the scribble overlay *)

Module ScribbleFacts.
Import ScribbleOverlay.

(** ** What the handlers leave alone *)

Ltac split_ifs :=
  repeat match goal with
         | |- context [if ?b then _ else _] => destruct b eqn:?
         | |- context [match ?o with Some _ => _ | None => _ end] =>
             destruct o eqn:?
         end.

Lemma stopDrawing_tools (st : State) : tools (stopDrawing st) = tools st.
Proof. unfold tools, stopDrawing. split_ifs; cbn; congruence. Qed.

Lemma startDrawing_tools (rect : Rect) (e : MouseEvent) (st : State) :
  tools (startDrawing rect e st) = tools st.
Proof. unfold tools, startDrawing. split_ifs; cbn; congruence. Qed.

Lemma draw_tools (rect : Rect) (e : MouseEvent) (st : State) :
  tools (draw rect e st) = tools st.
Proof.
  unfold draw. split_ifs; try done; apply startDrawing_tools.
Qed.

Lemma saveAfterStroke_tools (prev st : State) :
  tools (saveAfterStroke prev st) = tools st.
Proof. unfold tools, saveAfterStroke, saveCanvasState. split_ifs; cbn; congruence. Qed.

Lemma rebind_tools (prev st : State) :
  tools (KeyBindings.rebind prev st) = tools st.
Proof. unfold tools, KeyBindings.rebind. split_ifs; cbn; congruence. Qed.

Create HintDb frame.
#[local] Hint Resolve stopDrawing_tools startDrawing_tools draw_tools : frame.

Lemma pointer_step_total (st : State) (ev : Event) :
  is_pointer ev = true -> exists st', step st ev = Some st'.
Proof. destruct ev; try done; intros _; unfold step; cbn; eauto. Qed.

Lemma pointer_step_tools (st st' : State) (ev : Event) :
  is_pointer ev = true -> step st ev = Some st' -> tools st' = tools st.
Proof.
  intros Hp. unfold step, effects.
  destruct ev; try done; cbn; intros [= <-];
    rewrite rebind_tools, saveAfterStroke_tools;
    destruct (pointerEvents st); try done; auto with frame.
  transitivity (tools (draw rect e st)); [done|auto with frame].
Qed.

Lemma pointer_run_tools (evs : list Event) (st : State) :
  forallb is_pointer evs = true ->
  exists st', run st evs = Some st' /\ tools st' = tools st.
Proof.
  revert st. induction evs as [|ev evs IH]; intros st Hp; [by exists st|].
  cbn in Hp. apply andb_prop in Hp as [Hev Hp].
  destruct (pointer_step_total st ev Hev) as [st1 Hstep].
  destruct (IH st1 Hp) as (st' & Hrun & Htools).
  exists st'. cbn. rewrite Hstep. split; [done|].
  rewrite Htools. by eapply pointer_step_tools.
Qed.

Lemma scribble_run_app (st : State) (evs1 evs2 : list Event) :
  run st (evs1 ++ evs2) = run st evs1 ≫= fun st1 => run st1 evs2.
Proof.
  revert st. induction evs1 as [|ev evs1 IH]; intros st; [done|].
  cbn. destruct (step st ev) as [st1|]; [apply IH|done].
Qed.

(** ** The draw and erase trigger keys *)

Lemma keydown_trigger_tools (st : State) (k : KeyboardEvent) :
  isScribbleMode st = true ->
  code k = "Space" \/ code k = "KeyE" ->
  key k <> "Escape" ->
  exists held,
    step st (KeyDown k) = Some held
    /\ tools held
       = (true, String.eqb (code k) "KeyE", true, backgroundState st).
Proof.
  intros Hmode Hcode Hkey. apply String.eqb_neq in Hkey.
  destruct k as [c ky sh]. cbn in *.
  exists (effects st (KeyDown (mkKey c ky sh))
            (KeyBindings.handleKeyDown (mkKey c ky sh)
               (ToolKeys.handleKeyDown (mkKey c ky sh) st))).
  split; [reflexivity|]. unfold effects.
  rewrite rebind_tools, saveAfterStroke_tools.
  unfold tools, KeyBindings.handleKeyDown, ToolKeys.handleKeyDown.
  cbn. rewrite Hmode, Hkey.
  destruct Hcode as [-> | ->]; cbn; rewrite andb_false_r; cbn;
    by rewrite Hmode.
Qed.

Lemma keyup_trigger_tools (st : State) (k : KeyboardEvent) :
  isScribbleMode st = true ->
  code k = "Space" \/ code k = "KeyE" ->
  exists released,
    step st (KeyUp k) = Some released
    /\ tools released = (true, backgroundState st, false, backgroundState st).
Proof.
  intros Hmode Hcode. destruct k as [c ky sh]. cbn in *.
  exists (effects st (KeyUp (mkKey c ky sh))
            (KeyBindings.handleKeyUp (mkKey c ky sh)
               (ToolKeys.handleKeyUp (mkKey c ky sh) st))).
  split; [reflexivity|]. unfold effects.
  rewrite rebind_tools, saveAfterStroke_tools.
  unfold KeyBindings.handleKeyUp, ToolKeys.handleKeyUp. cbn.
  rewrite Hmode.
  destruct Hcode as [-> | ->]; cbn; rewrite stopDrawing_tools;
    unfold tools; cbn; by rewrite Hmode.
Qed.

(** C5. In scribble mode, whatever the resting tool is: pressing the draw
    trigger (space) makes the pencil the active tool and pressing the erase
    trigger (E) makes the eraser the active tool, in both cases without
    changing the resting tool; the pointer events of the hold change neither;
    and releasing the key makes the resting tool the active tool again. *)
Theorem key_hold_overrides_tool (st : State) (k : KeyboardEvent)
    (evs : list Event) :
  isScribbleMode st = true ->
  code k = "Space" \/ code k = "KeyE" ->
  key k <> "Escape" ->
  forallb is_pointer evs = true ->
  exists held during released,
    step st (KeyDown k) = Some held
    /\ isEraser held = String.eqb (code k) "KeyE"
    /\ backgroundState held = backgroundState st
    /\ run held evs = Some during
    /\ isEraser during = String.eqb (code k) "KeyE"
    /\ backgroundState during = backgroundState st
    /\ step during (KeyUp k) = Some released
    /\ run st (KeyDown k :: evs ++ [KeyUp k]) = Some released
    /\ isEraser released = backgroundState st
    /\ backgroundState released = backgroundState st.
Proof.
  intros Hmode Hcode Hkey Hevs.
  destruct (keydown_trigger_tools st k Hmode Hcode Hkey) as (held & Hd & Hh).
  destruct (pointer_run_tools evs held Hevs) as (during & Hrun & Ht).
  rewrite Hh in Ht.
  assert (isScribbleMode during = true) as Hmode' by (by injection Ht).
  destruct (keyup_trigger_tools during k Hmode' Hcode) as (released & Hu & Hr).
  exists held, during, released.
  unfold tools in *.
  injection Hh as _ Hh1 _ Hh2. injection Ht as _ Ht1 _ Ht2.
  injection Hr as _ Hr1 _ Hr2.
  repeat split; try congruence.
  cbn [run]. rewrite Hd, scribble_run_app, Hrun.
  change (run during [KeyUp k] = Some released).
  cbn [run]. by rewrite Hu.
Qed.

Lemma key_hold_overrides_tool_witness :
  let l := mkLayout 2 (Some (mkParent 900 800 800 1200)) 900 900 700 true in
  let st := eraser_onClick (initial true l) in
  let k := mkKey "Space" " " false in
  let r := mkRect 0 0 in
  let evs := [MouseMove r (mkMouse 10 10); MouseMove r (mkMouse 20 25)] in
  isScribbleMode st = true
  /\ backgroundState st = true
  /\ forallb is_pointer evs = true
  /\ exists held during released,
       step st (KeyDown k) = Some held
       /\ isEraser held = false
       /\ backgroundState held = true
       /\ run held evs = Some during
       /\ isEraser during = false
       /\ backgroundState during = true
       /\ step during (KeyUp k) = Some released
       /\ run st (KeyDown k :: evs ++ [KeyUp k]) = Some released
       /\ isEraser released = true
       /\ backgroundState released = true.
Proof.
  intros l st k r evs.
  split; [reflexivity|]. split; [reflexivity|]. split; [reflexivity|].
  assert (key k <> "Escape") as Hkey by discriminate.
  exact (key_hold_overrides_tool st k evs eq_refl (or_introl eq_refl) Hkey
           eq_refl).
Defined.

(** ** Turning scribble mode off *)

Lemma ToolKeys_keydown_stroke_cells (e : KeyboardEvent) (st : State) :
  stroke_cells (ToolKeys.handleKeyDown e st) = stroke_cells st
  /\ isScribbleMode (ToolKeys.handleKeyDown e st) = isScribbleMode st
  /\ isTabPressed (ToolKeys.handleKeyDown e st) = isTabPressed st.
Proof. unfold stroke_cells, ToolKeys.handleKeyDown. by split_ifs. Qed.

Lemma KeyBindings_keydown_stroke_cells (e : KeyboardEvent) (st : State) :
  stroke_cells (KeyBindings.handleKeyDown e st) = stroke_cells st.
Proof. unfold stroke_cells, KeyBindings.handleKeyDown. by split_ifs. Qed.

Lemma KeyBindings_keydown_off (e : KeyboardEvent) (st : State) :
  isScribbleMode st = true ->
  code e <> "Tab" ->
  (isTabPressed st = true /\ code e = "KeyS")
  \/ key e = "Escape" \/ code e = "Escape" ->
  isScribbleMode (KeyBindings.handleKeyDown e st) = false.
Proof.
  intros Hmode Htab%String.eqb_neq Hoff.
  unfold KeyBindings.handleKeyDown. rewrite Htab, Hmode, andb_true_r.
  destruct Hoff as [[Ht Hs] | Hesc].
  - apply String.eqb_eq in Hs. rewrite Ht, Hs. cbn.
    by destruct (_ || _).
  - assert (String.eqb (key e) "Escape" || String.eqb (code e) "Escape"
            = true) as ->.
    { apply orb_true_iff. by rewrite !String.eqb_eq. }
    done.
Qed.

(** With the flag off, pointer-down, pointer-move and pointer-up change
    nothing. *)
Lemma pointer_step_off (st : State) (ev : Event) :
  isScribbleMode st = false ->
  is_down_move_up ev = true ->
  step st ev = Some st.
Proof.
  intros Hmode Hp. unfold step.
  destruct ev; try done; cbn [dispatch]; unfold pointerEvents;
    rewrite Hmode; cbn; unfold effects, saveAfterStroke, KeyBindings.rebind;
    by rewrite !Bool.eqb_reflx.
Qed.

Lemma effects_keydown_stroke_cells (prev st : State) (e : KeyboardEvent) :
  isDrawing st = isDrawing prev ->
  stroke_cells (effects prev (KeyDown e) st) = stroke_cells st
  /\ isScribbleMode (effects prev (KeyDown e) st) = isScribbleMode st.
Proof.
  intros Hd. unfold effects, saveAfterStroke. rewrite Hd, Bool.eqb_reflx.
  unfold stroke_cells, KeyBindings.rebind. by split_ifs.
Qed.

(** C4, as stated, fails: Escape in the middle of an eraser stroke clears the
    mode flag only; the drawing flag and the pointer-held flag stay set and
    the context stays in erase compositing. *)
Lemma escape_mid_stroke_keeps_drawing :
  let l := mkLayout 1 (Some (mkParent 900 800 800 1200)) 900 900 700 true in
  let r := mkRect 0 0 in
  let esc := mkKey "Escape" "Escape" false in
  let stroke_then_escape :=
    run (initial true l)
      [EraserClick; MouseDown r (mkMouse 10 10); MouseMove r (mkMouse 20 25);
       KeyDown esc] in
  isScribbleMode <$> stroke_then_escape = Some false
  /\ isDrawing <$> stroke_then_escape = Some true
  /\ isMouseDown <$> stroke_then_escape = Some true
  /\ (stroke_then_escape ≫= canvasRef) ≫= (fun c => Some (globalCompositeOperation c))
     = Some DestinationOut.
Proof. by vm_compute. Qed.

(** C4, amended.  Turning scribble mode off, by the chord or by Escape,
    clears the mode flag and nothing of the stroke in progress: the drawing
    flag, the pointer-held flag, the canvas with its path and compositing
    mode, and the saved snapshot are as before.  While the mode is off
    pointer-down, pointer-move and pointer-up do not reach the canvas, so
    the stroke is not continued. *)
Theorem mode_off_keeps_stroke_state (st : State) (e : KeyboardEvent) :
  isScribbleMode st = true ->
  code e <> "Tab" ->
  (isTabPressed st = true /\ code e = "KeyS")
  \/ key e = "Escape" \/ code e = "Escape" ->
  exists st',
    step st (KeyDown e) = Some st'
    /\ isScribbleMode st' = false
    /\ isDrawing st' = isDrawing st
    /\ isMouseDown st' = isMouseDown st
    /\ didDrawInStroke st' = didDrawInStroke st
    /\ canvasRef st' = canvasRef st
    /\ lastDrawnState st' = lastDrawnState st
    /\ (forall ev, is_down_move_up ev = true -> step st' ev = Some st').
Proof.
  intros Hmode Htab Hoff.
  destruct (ToolKeys_keydown_stroke_cells e st) as (Hc1 & Hm1 & Ht1).
  pose proof (KeyBindings_keydown_stroke_cells e (ToolKeys.handleKeyDown e st))
    as Hc2.
  assert (isScribbleMode
            (KeyBindings.handleKeyDown e (ToolKeys.handleKeyDown e st))
          = false) as Hm2.
  { apply KeyBindings_keydown_off; [congruence|done|]. by rewrite Ht1. }
  rewrite Hc1 in Hc2.
  assert (isDrawing (KeyBindings.handleKeyDown e (ToolKeys.handleKeyDown e st))
          = isDrawing st) as Hd by (by injection Hc2).
  destruct (effects_keydown_stroke_cells st _ e Hd) as [Hc3 Hm3].
  rewrite Hc2 in Hc3. rewrite Hm2 in Hm3.
  exists (effects st (KeyDown e)
            (KeyBindings.handleKeyDown e (ToolKeys.handleKeyDown e st))).
  split; [reflexivity|]. split; [exact Hm3|].
  unfold stroke_cells in Hc3. injection Hc3 as H1 H2 H3 H4 H5.
  repeat split; try done.
  intros ev Hev. by apply pointer_step_off.
Qed.

Lemma mode_off_keeps_stroke_state_witness :
  let l := mkLayout 1 (Some (mkParent 900 800 800 1200)) 900 900 700 true in
  let r := mkRect 0 0 in
  let st := startDrawing r (mkMouse 10 10) (initial true l) in
  let esc := mkKey "Escape" "Escape" false in
  isScribbleMode st = true
  /\ isDrawing st = true
  /\ exists st',
       step st (KeyDown esc) = Some st'
       /\ isScribbleMode st' = false
       /\ isDrawing st' = isDrawing st
       /\ isMouseDown st' = isMouseDown st
       /\ didDrawInStroke st' = didDrawInStroke st
       /\ canvasRef st' = canvasRef st
       /\ lastDrawnState st' = lastDrawnState st
       /\ (forall ev, is_down_move_up ev = true -> step st' ev = Some st').
Proof.
  intros l r st esc. split; [reflexivity|]. split; [reflexivity|].
  assert (code esc <> "Tab") as Htab by discriminate.
  exact (mode_off_keeps_stroke_state st esc eq_refl Htab
           (or_intror (or_introl eq_refl))).
Defined.

(** ** Strokes *)

Lemma strokes_from_app_begin (painted : bool) (cs rest : list CtxCall) :
  strokes_from painted (cs ++ BeginPath :: rest)
  = strokes_from painted cs + strokes_from false rest.
Proof.
  revert painted. induction cs as [|c cs IH]; intros painted; [done|].
  destruct c; cbn; rewrite ?IH; lia.
Qed.

Lemma strokes_from_app_quiet (painted : bool) (cs rest : list CtxCall) :
  Forall (fun c => c <> Stroke) rest ->
  strokes_from painted (cs ++ rest) = strokes_from painted cs.
Proof.
  intros Hq. revert painted. induction cs as [|c cs IH]; intros painted.
  - cbn. revert painted. induction Hq as [|c rest Hc _ IHr]; intros painted;
      [done|].
    destruct c; cbn; by rewrite ?IHr.
  - destruct c; cbn; by rewrite ?IH.
Qed.

Lemma paths_begun_app (cs1 cs2 : list CtxCall) :
  paths_begun (cs1 ++ cs2) = paths_begun cs1 + paths_begun cs2.
Proof.
  induction cs1 as [|c cs1 IH]; [done|]. destruct c; cbn; rewrite ?IH; lia.
Qed.

Lemma strokes_from_drag_calls (painted : bool) (ps : list (Rect * MouseEvent)) :
  strokes_from painted (drag_calls ps ++ [ClosePath])
  = match ps with
    | [] => 0
    | _ :: _ => if painted then 0 else 1
    end.
Proof.
  revert painted. induction ps as [|p ps IH]; intros painted; [done|].
  cbn. rewrite IH. destruct painted, ps; cbn; lia.
Qed.

Lemma paths_begun_drag_calls (ps : list (Rect * MouseEvent)) :
  paths_begun (drag_calls ps ++ [ClosePath]) = 0.
Proof. induction ps as [|p ps IH]; [done|]. cbn. exact IH. Qed.

Lemma strokes_from_gesture (painted : bool) (cs : list CtxCall) (g : Gesture) :
  strokes_from painted (cs ++ gesture_calls g)
  = strokes_from painted cs + (if has_move g then 1 else 0).
Proof.
  unfold gesture_calls. cbn [app]. rewrite strokes_from_app_begin.
  cbn [strokes_from]. rewrite strokes_from_drag_calls.
  unfold has_move. by destruct (dragged g).
Qed.

Lemma paths_begun_gesture (cs : list CtxCall) (g : Gesture) :
  paths_begun (cs ++ gesture_calls g) = paths_begun cs + 1.
Proof.
  rewrite paths_begun_app. unfold gesture_calls. cbn.
  by rewrite paths_begun_drag_calls.
Qed.

Lemma strokes_session (cs : list CtxCall) (gs : list Gesture) :
  strokes_drawn (cs ++ (gs ≫= gesture_calls))
  = strokes_drawn cs + count_moved gs
  /\ paths_begun (cs ++ (gs ≫= gesture_calls)) = paths_begun cs + length gs.
Proof.
  unfold strokes_drawn. revert cs.
  induction gs as [|g gs IH]; intros cs.
  - cbn. rewrite app_nil_r. lia.
  - rewrite bind_cons, app_assoc. destruct (IH (cs ++ gesture_calls g)) as [-> ->].
    rewrite strokes_from_gesture, paths_begun_gesture. cbn. lia.
Qed.

Lemma count_moved_all (gs : list Gesture) :
  Forall (fun g => has_move g = true) gs -> count_moved gs = length gs.
Proof.
  induction 1 as [|g gs Hg _ IH]; [done|]. cbn. by rewrite Hg, IH.
Qed.

(** ** Pointer events, one at a time *)

Ltac open_state st :=
  let c := fresh "c" in
  let Hc := fresh "Hc" in
  let Hctx := fresh "Hctx" in
  match goal with
  | H : ready st |- _ =>
      destruct H as (? & ? & c & Hc & Hctx);
      destruct st; destruct c; cbn in *; subst
  end.

Lemma step_hover (st : State) (r : Rect) (e : MouseEvent) :
  ready st -> idle st ->
  exists st',
    step st (MouseMove r e) = Some st'
    /\ ready st' /\ idle st' /\ canvas_calls st' = canvas_calls st.
Proof.
  intros Hr [Hd Hm]. open_state st.
  eexists. split; [reflexivity|].
  unfold ready, idle. cbn. eauto 10.
Qed.

Lemma step_down (st : State) (r : Rect) (e : MouseEvent) :
  ready st ->
  exists st',
    step st (MouseDown r e) = Some st'
    /\ ready st' /\ isDrawing st' = true /\ isMouseDown st' = true
    /\ canvas_calls st'
       = canvas_calls st
         ++ [BeginPath; MoveTo (clientX e - left r) (clientY e - top r)].
Proof.
  intros Hr. open_state st.
  eexists. split; [reflexivity|].
  unfold ready.
  destruct isEraser0, isDrawing0; cbn; rewrite <- ?app_assoc; eauto 10.
Qed.

Lemma step_drag (st : State) (r : Rect) (e : MouseEvent) :
  ready st -> isDrawing st = true -> isMouseDown st = true ->
  exists st',
    step st (MouseMove r e) = Some st'
    /\ ready st' /\ isDrawing st' = true /\ isMouseDown st' = true
    /\ canvas_calls st'
       = canvas_calls st
         ++ [LineTo (clientX e - left r) (clientY e - top r); Stroke].
Proof.
  intros Hr Hd Hm. open_state st.
  eexists. split; [reflexivity|].
  unfold ready. cbn; rewrite <- ?app_assoc; eauto 10.
Qed.

Lemma step_up (st : State) :
  ready st -> isDrawing st = true ->
  exists st',
    step st MouseUp = Some st'
    /\ ready st' /\ idle st'
    /\ canvas_calls st' = canvas_calls st ++ [ClosePath].
Proof.
  intros Hr Hd. open_state st.
  eexists. split; [reflexivity|].
  unfold ready, idle. cbn; rewrite <- ?app_assoc; eauto 10.
Qed.

(** ** Whole gestures *)

Lemma run_hover (ps : list (Rect * MouseEvent)) (st : State) :
  ready st -> idle st ->
  exists st',
    run st (moves ps) = Some st'
    /\ ready st' /\ idle st' /\ canvas_calls st' = canvas_calls st.
Proof.
  revert st. induction ps as [|[r e] ps IH]; intros st Hr Hi.
  { by exists st. }
  destruct (step_hover st r e Hr Hi) as (st1 & Hs & Hr1 & Hi1 & Hc1).
  destruct (IH st1 Hr1 Hi1) as (st' & Hrun & Hr' & Hi' & Hc').
  exists st'. cbn [moves fmap list_fmap run fst snd]. rewrite Hs.
  repeat split; try done; try apply Hr'; try apply Hi'. congruence.
Qed.

Lemma run_drag (ps : list (Rect * MouseEvent)) (st : State) :
  ready st -> isDrawing st = true -> isMouseDown st = true ->
  exists st',
    run st (moves ps) = Some st'
    /\ ready st' /\ isDrawing st' = true /\ isMouseDown st' = true
    /\ canvas_calls st' = canvas_calls st ++ drag_calls ps.
Proof.
  revert st. induction ps as [|[r e] ps IH]; intros st Hr Hd Hm.
  { exists st. by rewrite app_nil_r. }
  destruct (step_drag st r e Hr Hd Hm) as (st1 & Hs & Hr1 & Hd1 & Hm1 & Hc1).
  destruct (IH st1 Hr1 Hd1 Hm1) as (st' & Hrun & Hr' & Hd' & Hm' & Hc').
  exists st'. cbn [moves fmap list_fmap run fst snd]. rewrite Hs.
  repeat split; try done; try apply Hr'.
  rewrite Hc', Hc1. unfold drag_calls. rewrite bind_cons.
  by rewrite <- !app_assoc.
Qed.

Lemma run_gesture (g : Gesture) (st : State) :
  ready st -> idle st ->
  exists st',
    run st (gesture_events g) = Some st'
    /\ ready st' /\ idle st'
    /\ canvas_calls st' = canvas_calls st ++ gesture_calls g.
Proof.
  intros Hr Hi. unfold gesture_events.
  destruct (run_hover (hover g) st Hr Hi) as (st1 & Hrun1 & Hr1 & Hi1 & Hc1).
  destruct (step_down st1 (down g).1 (down g).2 Hr1)
    as (st2 & Hs2 & Hr2 & Hd2 & Hm2 & Hc2).
  destruct (run_drag (dragged g) st2 Hr2 Hd2 Hm2)
    as (st3 & Hrun3 & Hr3 & Hd3 & Hm3 & Hc3).
  destruct (step_up st3 Hr3 Hd3) as (st4 & Hs4 & Hr4 & Hi4 & Hc4).
  exists st4. split.
  - rewrite scribble_run_app, Hrun1. cbn [mbind option_bind app run].
    rewrite Hs2, scribble_run_app, Hrun3. cbn [mbind option_bind run].
    by rewrite Hs4.
  - repeat split; try done; try apply Hr4; try apply Hi4.
    rewrite Hc4, Hc3, Hc2, Hc1. unfold gesture_calls.
    by rewrite <- !app_assoc.
Qed.

Lemma run_session (gs : list Gesture) (st : State) :
  ready st -> idle st ->
  exists st',
    run st (session_events gs) = Some st'
    /\ ready st' /\ idle st'
    /\ canvas_calls st' = canvas_calls st ++ (gs ≫= gesture_calls).
Proof.
  revert st. induction gs as [|g gs IH]; intros st Hr Hi.
  { exists st. by rewrite app_nil_r. }
  destruct (run_gesture g st Hr Hi) as (st1 & Hrun1 & Hr1 & Hi1 & Hc1).
  destruct (IH st1 Hr1 Hi1) as (st' & Hrun & Hr' & Hi' & Hc').
  exists st'. unfold session_events. rewrite bind_cons, scribble_run_app, Hrun1.
  split; [exact Hrun|]. repeat split; try done; try apply Hr'; try apply Hi'.
  rewrite Hc', Hc1, bind_cons. by rewrite <- app_assoc.
Qed.

(** With the flag off the pointer-down and pointer-move handlers return at
    their first line; the pointer-up handler has no such line, but what it
    does paints nothing. *)
Lemma handlers_off (st : State) (r : Rect) (e : MouseEvent) :
  isScribbleMode st = false ->
  startDrawing r e st = st /\ draw r e st = st.
Proof. intros H. unfold startDrawing, draw. by rewrite H. Qed.

Lemma stopDrawing_paints_nothing (st : State) :
  canvas_raster (stopDrawing st) = canvas_raster st
  /\ strokes_drawn (canvas_calls (stopDrawing st))
     = strokes_drawn (canvas_calls st).
Proof.
  unfold stopDrawing, canvas_raster, canvas_calls, strokes_drawn.
  destruct (negb (isDrawing st)); [done|].
  destruct (canvasRef st) as [c|] eqn:Hc; cbn; rewrite ?Hc; [|done].
  destruct (hasContext c); [|done]. cbn. split; [done|].
  apply strokes_from_app_quiet. by repeat constructor.
Qed.

(** C3, as stated, fails: only the move handler paints (lines 281-282), so
    a pointer-down followed at once by the pointer-up is a down-up pair that
    draws no stroke: it begins a path, moves to the point and closes the
    path.  Moves before the pointer-down and after the pointer-up, with no
    key held, do not paint either. *)
Lemma click_without_move_draws_no_stroke :
  let l := mkLayout 2 (Some (mkParent 900 800 800 1200)) 900 900 700 true in
  let r := mkRect 0 40 in
  let st := initial true l in
  let click := [MouseDown r (mkMouse 10 50); MouseUp] in
  (canvas_calls <$> run st click) = Some [BeginPath; MoveTo 10 10; ClosePath]
  /\ (canvas_raster <$> run st click) = Some (canvas_raster st)
  /\ (canvas_calls
        <$> run st (MouseMove r (mkMouse 5 45) :: click
                    ++ [MouseMove r (mkMouse 20 60)]))
     = Some [BeginPath; MoveTo 10 10; ClosePath]
  /\ strokes_drawn [BeginPath; MoveTo 10 10; ClosePath] = 0.
Proof. repeat split; by vm_compute. Qed.

(** C3, amended.  In scribble mode, starting from the idle state with no
    trigger key held, a sequence of pointer gestures (each a pointer-down,
    moves, and the pointer-up, with or without hovering moves around them)
    begins exactly one path per gesture and paints exactly one stroke for
    every gesture in which the pointer moved between down and up, none for a
    gesture without such a move; so when every gesture has such a move, the
    strokes drawn are as many as the down-up pairs.  With
    scribble mode off, pointer-down, pointer-move and pointer-up do not reach
    the canvas: the state, drawing surface included, stays as it is; the
    handlers of pointer-down and pointer-move would return at their guard,
    and the handler of pointer-up paints nothing. *)
Theorem one_stroke_per_gesture (st : State) (gs : list Gesture)
    (trailing : list (Rect * MouseEvent)) (ev : Event) :
  (ready st -> idle st ->
   exists st',
     run st (session_events gs ++ moves trailing) = Some st'
     /\ canvas_calls st' = canvas_calls st ++ (gs ≫= gesture_calls)
     /\ paths_begun (canvas_calls st')
        = paths_begun (canvas_calls st) + length gs
     /\ strokes_drawn (canvas_calls st')
        = strokes_drawn (canvas_calls st) + count_moved gs
     /\ (Forall (fun g => has_move g = true) gs ->
         strokes_drawn (canvas_calls st')
         = strokes_drawn (canvas_calls st) + length gs)
     /\ ready st' /\ idle st')
  /\ (isScribbleMode st = false -> is_down_move_up ev = true ->
      step st ev = Some st
      /\ (forall r e, startDrawing r e st = st /\ draw r e st = st)
      /\ canvas_raster (stopDrawing st) = canvas_raster st
      /\ strokes_drawn (canvas_calls (stopDrawing st))
         = strokes_drawn (canvas_calls st)).
Proof.
  split.
  - intros Hr Hi.
    destruct (run_session gs st Hr Hi) as (st1 & Hrun1 & Hr1 & Hi1 & Hc1).
    destruct (run_hover trailing st1 Hr1 Hi1) as (st' & Hrun & Hr' & Hi' & Hc').
    destruct (strokes_session (canvas_calls st) gs) as [Hs Hp].
    exists st'. rewrite scribble_run_app, Hrun1, Hc', Hc1, Hs, Hp.
    repeat split; try done; try apply Hr'; try apply Hi'.
    intros Hall. by rewrite count_moved_all.
  - intros Hoff Hev. split; [by apply pointer_step_off|].
    split; [intros r e; by apply handlers_off|].
    apply stopDrawing_paints_nothing.
Qed.

Lemma one_stroke_per_gesture_witness :
  let l := mkLayout 2 (Some (mkParent 900 800 800 1200)) 900 900 700 true in
  let r := mkRect 0 40 in
  let st := initial true l in
  let g1 := mkGesture [(r, mkMouse 5 45)] (r, mkMouse 10 50)
              [(r, mkMouse 20 60); (r, mkMouse 30 80)] in
  let g2 := mkGesture [] (r, mkMouse 100 100) [(r, mkMouse 120 100)] in
  ready st /\ idle st
  /\ Forall (fun g => has_move g = true) [g1; g2]
  /\ exists st',
       run st (session_events [g1; g2] ++ moves [(r, mkMouse 0 0)]) = Some st'
       /\ canvas_calls st'
          = [BeginPath; MoveTo 10 10; LineTo 20 20; Stroke; LineTo 30 40;
             Stroke; ClosePath;
             BeginPath; MoveTo 100 60; LineTo 120 60; Stroke; ClosePath]
       /\ strokes_drawn (canvas_calls st') = 2.
Proof.
  intros l r st g1 g2.
  assert (ready st) as Hr.
  { split; [reflexivity|]. split; [reflexivity|]. eexists. by split. }
  assert (idle st) as Hi by (by split).
  assert (Forall (fun g => has_move g = true) [g1; g2]) as Hall
      by (by repeat constructor).
  split; [exact Hr|]. split; [exact Hi|]. split; [exact Hall|].
  destruct (proj1 (one_stroke_per_gesture st [g1; g2] [(r, mkMouse 0 0)]
                     MouseUp) Hr Hi)
    as (st' & Hrun & Hc & _ & _ & Hn & _).
  exists st'. split; [exact Hrun|]. split; [exact Hc|]. exact (Hn Hall).
Defined.

(** ** Resizing and the saved snapshot *)

(** The size the canvas is given for a layout. *)
Lemma updateCanvasSize_same_size (l : Layout) (st : State) (c : Canvas)
    (p : Parent) :
  canvasRef st = Some c ->
  parentElement l = Some p ->
  let dpr := if (devicePixelRatio l =? 0)%Z then 1%Z else devicePixelRatio l in
  let h := Z.max (scrollHeight p)
             (Z.max (offsetHeight p)
                (Z.max (clientHeight p)
                   (Z.max (docScrollHeight l)
                      (Z.max (docOffsetHeight l) (docClientHeight l))))) in
  width c = (offsetWidth p * dpr)%Z ->
  height c = (h * dpr)%Z ->
  updateCanvasSize l st = st.
Proof.
  intros Hc Hp dpr h Hw Hh. unfold updateCanvasSize. rewrite Hc, Hp.
  fold dpr. fold h. by rewrite Hw, Hh, !Z.eqb_refl.
Qed.

(** A resize that changes the size, with the scratch canvas available: the
    prior raster is redrawn on the cleared canvas under the scale of the
    device pixel ratio, and that raster becomes the saved snapshot. *)
Lemma updateCanvasSize_scratch (l : Layout) (st : State) (c : Canvas)
    (p : Parent) :
  canvasRef st = Some c ->
  hasContext c = true ->
  parentElement l = Some p ->
  scratchContext l = true ->
  let dpr := if (devicePixelRatio l =? 0)%Z then 1%Z else devicePixelRatio l in
  width c <> (offsetWidth p * dpr)%Z ->
  canvas_raster (updateCanvasSize l st) = Image Blank (raster c) dpr
  /\ data <$> lastDrawnState (updateCanvasSize l st)
     = Some (Image Blank (raster c) dpr).
Proof.
  intros Hc Hctx Hp Hs dpr Hw. apply Z.eqb_neq in Hw.
  unfold updateCanvasSize. rewrite Hc, Hp. fold dpr. rewrite Hw, Hs.
  cbn. rewrite Hctx. cbn. by rewrite Z.mul_1_l.
Qed.

(** The same resize without the scratch canvas: the canvas is cleared and
    the saved snapshot, if there is one, is put back; whatever was drawn
    since that snapshot is not on the canvas any more. *)
Lemma updateCanvasSize_no_scratch (l : Layout) (st : State) (c : Canvas)
    (p : Parent) :
  canvasRef st = Some c ->
  hasContext c = true ->
  parentElement l = Some p ->
  scratchContext l = false ->
  let dpr := if (devicePixelRatio l =? 0)%Z then 1%Z else devicePixelRatio l in
  width c <> (offsetWidth p * dpr)%Z ->
  canvas_raster (updateCanvasSize l st)
  = match lastDrawnState st with
    | Some d => Pixels Blank (data d)
    | None => Blank
    end
  /\ lastDrawnState (updateCanvasSize l st) = lastDrawnState st.
Proof.
  intros Hc Hctx Hp Hs dpr Hw. apply Z.eqb_neq in Hw.
  unfold updateCanvasSize. rewrite Hc, Hp. fold dpr. rewrite Hw, Hs.
  cbn. rewrite Hctx. cbn.
  destruct (lastDrawnState st) as [d|] eqn:Hd; cbn; by rewrite Hd.
Qed.

(** The end of a stroke clears [didDrawInStroke] in the handler itself, so
    the effect that runs after the render never finds it set: it saves
    nothing, whatever was drawn. *)
Lemma stopDrawing_then_effect (st : State) :
  saveAfterStroke st (stopDrawing st) = stopDrawing st
  /\ lastDrawnState (stopDrawing st) = lastDrawnState st.
Proof.
  unfold stopDrawing, saveAfterStroke.
  destruct (isDrawing st) eqn:Hd; cbn.
  - destruct (canvasRef st); cbn; by rewrite ?Hd.
  - by rewrite Hd.
Qed.


Lemma dispatch_keeps_snapshot (st st1 : State) (ev : Event) :
  drew_while_drawing st ->
  keeps_size ev = true ->
  dispatch st ev = Some st1 ->
  lastDrawnState st1 = lastDrawnState st /\ drew_while_drawing st1.
Proof.
  unfold drew_while_drawing. intros Hinv Hev Hd.
  destruct st as [mode drawing eraser space cursor bg color intro mouse drew
                    snap cref tab].
  cbn in Hinv.
  destruct ev; try done; cbn in Hd;
    try (destruct mode eqn:Hmode; [|done]);
    injection Hd as <-;
    unfold KeyBindings.handleKeyDown, KeyBindings.handleKeyUp,
      ToolKeys.handleKeyDown, ToolKeys.handleKeyUp, pointerEvents,
      handleMouseMove, draw, startDrawing, stopDrawing, clearCanvas,
      pencil_onClick, eraser_onClick; cbn;
    split_ifs; cbn in *; (split; [congruence|]); try congruence;
    intros; try congruence; try (by apply Hinv);
    destruct drawing; cbn in *; congruence.
Qed.

Lemma effects_keep_snapshot (prev st1 : State) (ev : Event) :
  drew_while_drawing st1 ->
  keeps_size ev = true ->
  lastDrawnState (effects prev ev st1) = lastDrawnState st1
  /\ drew_while_drawing (effects prev ev st1).
Proof.
  unfold drew_while_drawing. intros Hinv Hev.
  assert (saveAfterStroke prev st1 = st1) as Hsave.
  { unfold saveAfterStroke. destruct (Bool.eqb _ _); [done|].
    destruct (isDrawing st1) eqn:Hd; [done|].
    destruct (didDrawInStroke st1); [|done]. by specialize (Hinv eq_refl). }
  unfold effects. rewrite Hsave.
  destruct ev; try done; unfold KeyBindings.rebind; by split_ifs.
Qed.

(** No event other than a new measurement of the canvas changes the saved
    snapshot: the end of a stroke never saves one. *)
Lemma run_keeps_snapshot (evs : list Event) (st st' : State) :
  drew_while_drawing st ->
  forallb keeps_size evs = true ->
  run st evs = Some st' ->
  lastDrawnState st' = lastDrawnState st /\ drew_while_drawing st'.
Proof.
  revert st. induction evs as [|ev evs IH]; intros st Hinv Hevs Hrun.
  { cbn in Hrun. by injection Hrun as <-. }
  cbn in Hevs. apply andb_prop in Hevs as [Hev Hevs].
  cbn in Hrun. unfold step in Hrun.
  destruct (dispatch st ev) as [st1|] eqn:Hd; [|done]. cbn in Hrun.
  destruct (dispatch_keeps_snapshot st st1 ev Hinv Hev Hd) as [Hl1 Hinv1].
  destruct (effects_keep_snapshot st st1 ev Hinv1 Hev) as [Hl2 Hinv2].
  destruct (IH _ Hinv2 Hevs Hrun) as [Hl Hinv'].
  split; [congruence|done].
Qed.

(** C8.  The claim holds for the resize itself (the three lemmas on
    [updateCanvasSize] above) but not for the snapshot: the source announces
    "Save canvas state after each stroke", yet after a completed stroke that
    drew, the saved snapshot is still the one taken when the canvas was
    mounted.  A later resize that has to fall back on the snapshot therefore
    puts back a raster without the stroke, although a snapshot exists; with
    the scratch copy the stroke survives. *)
Theorem completed_stroke_saves_no_snapshot :
  let l := mkLayout 1 (Some (mkParent 900 800 800 1200)) 900 900 700 true in
  let narrower_no_scratch :=
    mkLayout 1 (Some (mkParent 900 800 800 1000)) 900 900 700 false in
  let narrower_scratch :=
    mkLayout 1 (Some (mkParent 900 800 800 1000)) 900 900 700 true in
  let r := mkRect 0 0 in
  let mounted := initial true l in
  let drawn :=
    run mounted
      [MouseDown r (mkMouse 10 10); MouseMove r (mkMouse 20 25); MouseUp] in
  (fun st => has_stroke (canvas_raster st)) <$> drawn = Some true
  /\ isDrawing <$> drawn = Some false
  /\ lastDrawnState <$> drawn = Some (lastDrawnState mounted)
  /\ (fun d => has_stroke (data d)) <$> lastDrawnState mounted = Some false
  /\ (fun st => has_stroke (canvas_raster st))
       <$> (drawn ≫= fun st => step st (Resize narrower_no_scratch))
     = Some false
  /\ (fun st => has_stroke (canvas_raster st))
       <$> (drawn ≫= fun st => step st (Resize narrower_scratch))
     = Some true.
Proof. by vm_compute. Qed.

(** ** Measuring the canvas again *)

(** What one measurement does: nothing, or a canvas of the asked size with a
    fresh context (no path, normal compositing, width 2, the selected
    colour), the same call record and the same availability of a context;
    the flags are never touched. *)
Lemma updateCanvasSize_cases (l : Layout) (st : State) :
  flags (updateCanvasSize l st) = flags st
  /\ (updateCanvasSize l st = st
      \/ exists c p c',
           canvasRef st = Some c
           /\ parentElement l = Some p
           /\ sized_for l p c = false
           /\ canvasRef (updateCanvasSize l st) = Some c'
           /\ width c' = (offsetWidth p * ratio l)%Z
           /\ height c' = (max_height l p * ratio l)%Z
           /\ hasContext c' = hasContext c
           /\ calls c' = calls c
           /\ path c' = []
           /\ globalCompositeOperation c' = SourceOver
           /\ (hasContext c = true ->
               lineWidth c' = 2%Z /\ strokeStyle c' = strokeColor st
               /\ scale c' = ratio l)).
Proof.
  unfold updateCanvasSize.
  destruct (canvasRef st) as [c|] eqn:Hc; [|split; [done|by left]].
  destruct (parentElement l) as [p|] eqn:Hp; [|split; [done|by left]].
  fold (ratio l). fold (max_height l p).
  change ((width c =? offsetWidth p * ratio l)%Z
          && (height c =? max_height l p * ratio l)%Z)
    with (sized_for l p c).
  destruct (sized_for l p c) eqn:Hsz; [split; [done|by left]|].
  cbn [resize_to hasContext].
  destruct (hasContext c) eqn:Hctx; cbn [negb].
  - destruct (scratchContext l).
    + cbn. rewrite Hctx. cbn. split; [done|]. right.
      eexists c, p, _. repeat split; try done.
      cbn [scale set_lineCapJoin set_lineWidth set_strokeStyle drawImage
             set_scale resize_to]. lia.
    + destruct (lastDrawnState st) as [d|]; cbn; (split; [done|]); right;
        eexists c, p, _; repeat split; try done;
        cbn [scale set_lineCapJoin set_lineWidth set_strokeStyle
               putImageData set_scale resize_to]; lia.
  - cbn. split; [done|]. right. eexists c, p, _.
    repeat split; try done; congruence.
Qed.

Lemma onResize_cases (l : Layout) (st : State) :
  onResize l st = st \/ onResize l st = updateCanvasSize l st.
Proof.
  unfold onResize. destruct (canvasRef st) as [c|]; [|by left].
  destruct (hasContext c); [by right|by left].
Qed.

(** ** Invariants of the tool state *)

Lemma onResize_invariants (l : Layout) (st : State) :
  with_context st ->
  with_context (onResize l st)
  /\ (two_states st -> two_states (onResize l st))
  /\ (resting_when_released st -> resting_when_released (onResize l st)).
Proof.
  intros Hctx.
  destruct (onResize_cases l st) as [-> | ->]; [done|].
  destruct (updateCanvasSize_cases l st) as [Hf Hc].
  unfold flags in Hf. injection Hf as Hm Hd He Hs Hb _ Hmd Hdd _.
  unfold with_context, two_states, resting_when_released in *.
  rewrite Hd, He, Hs, Hb, Hmd, Hdd.
  destruct Hc as [-> | (c & p & c' & Hc & _ & _ & Hc' & _ & _ & Hh & _ & _ & Hg & _)];
    [done|].
  rewrite Hc in Hctx. rewrite Hc'. cbn in *. rewrite Hh, Hg.
  split; [done|]. split; [|done].
  intros Hinv Hidle. destruct (Hinv Hidle) as (H1 & H2 & H3). done.
Qed.

Lemma dispatch_invariants (st st1 : State) (ev : Event) :
  with_context st ->
  dispatch st ev = Some st1 ->
  with_context st1
  /\ (two_states st -> two_states st1)
  /\ (resting_when_released st -> resting_when_released st1).
Proof.
  intros Hctx Hd.
  destruct ev;
    try (cbn in Hd; injection Hd as <-; by apply onResize_invariants).
  all: unfold with_context, two_states, resting_when_released in *;
    destruct st as [mode drawing eraser space cursor bg col intro mouse drew
                      snap [c|] tab]; [|done];
    cbn in Hctx, Hd; try (destruct mode eqn:Hmode; [|done]);
    injection Hd as <-;
    unfold KeyBindings.handleKeyDown, KeyBindings.handleKeyUp,
      ToolKeys.handleKeyDown, ToolKeys.handleKeyUp, pointerEvents,
      handleMouseMove, draw, startDrawing, stopDrawing, clearCanvas,
      pencil_onClick, eraser_onClick, set_strokeColor; cbn;
    rewrite ?Hctx; cbn;
    split_ifs; cbn in *; rewrite ?Hctx in *;
    (split; [try done; try (simplify_eq; congruence)|(split; [intros Hinv Hidle|intros Hinv Hrel]);
    try congruence; try (by apply Hinv); try (by destruct drawing)]).
Qed.

Lemma effects_invariants (prev st1 : State) (ev : Event) :
  with_context st1 ->
  with_context (effects prev ev st1)
  /\ (two_states st1 -> two_states (effects prev ev st1))
  /\ (resting_when_released st1 -> resting_when_released (effects prev ev st1)).
Proof.
  intros Hctx.
  assert (with_context (saveAfterStroke prev st1)
          /\ (two_states st1 -> two_states (saveAfterStroke prev st1))
          /\ (resting_when_released st1
              -> resting_when_released (saveAfterStroke prev st1))) as Hsave.
  { unfold with_context, two_states, resting_when_released, saveAfterStroke,
      saveCanvasState in *.
    destruct st1 as [mode drawing eraser space cursor bg col intro mouse drew
                       snap [c|] tab]; [|done].
    cbn in *. rewrite Hctx.
    destruct (Bool.eqb _ _); [done|].
    destruct (negb drawing && drew); [|done]. cbn.
    split; [done|]. split; [|done].
    intros Hinv Hidle. by destruct (Hinv Hidle) as (? & ? & ?). }
  destruct Hsave as (Hc1 & Ht1 & Hr1).
  assert (forall st2, with_context st2 ->
            with_context (KeyBindings.rebind prev st2)
            /\ (two_states st2 -> two_states (KeyBindings.rebind prev st2))
            /\ (resting_when_released st2
                -> resting_when_released (KeyBindings.rebind prev st2)))
    as Hrebind.
  { intros st2 H2.
    unfold KeyBindings.rebind, with_context, two_states,
      resting_when_released in *.
    by destruct (Bool.eqb _ _). }
  unfold effects.
  destruct ev; try (destruct (Hrebind _ Hc1) as (? & ? & ?); by auto 6).
  destruct (String.eqb _ _);
    [destruct (Hrebind _ Hc1) as (? & ? & ?); by auto 6|].
  destruct (onResize_invariants l _ Hc1) as (Hc2 & Ht2 & Hr2).
  destruct (Hrebind _ Hc2) as (? & ? & ?). by auto 8.
Qed.

Lemma run_invariants (evs : list Event) (st st' : State) :
  with_context st ->
  run st evs = Some st' ->
  with_context st'
  /\ (two_states st -> two_states st')
  /\ (resting_when_released st -> resting_when_released st').
Proof.
  revert st. induction evs as [|ev evs IH]; intros st Hctx Hrun.
  { cbn in Hrun. by injection Hrun as <-. }
  cbn in Hrun. unfold step in Hrun.
  destruct (dispatch st ev) as [st1|] eqn:Hd; [|done]. cbn in Hrun.
  destruct (dispatch_invariants st st1 ev Hctx Hd) as (Hc1 & Ht1 & Hr1).
  destruct (effects_invariants st st1 ev Hc1) as (Hc2 & Ht2 & Hr2).
  destruct (IH _ Hc2 Hrun) as (Hc3 & Ht3 & Hr3). by auto 8.
Qed.

Lemma initial_invariants (mode : bool) (l : Layout) :
  with_context (initial mode l)
  /\ two_states (initial mode l)
  /\ resting_when_released (initial mode l).
Proof.
  assert (with_context (unmounted mode)) as Hc by done.
  destruct (onResize_invariants l (unmounted mode) Hc) as (H1 & H2 & H3).
  split; [exact H1|]. split; [by apply H2|by apply H3].
Qed.

(** X8. The tool-state machine has two states.  In every state the overlay
    can reach after it is mounted, whenever no stroke is in progress there
    is also no pointer button recorded as held, nothing recorded as drawn,
    and the context composites normally (the erase compositing never
    outlives a stroke). *)
Theorem machine_has_two_states (mode : bool) (l : Layout) (evs : list Event)
    (st' : State) :
  run (initial mode l) evs = Some st' ->
  two_states st'.
Proof.
  intros Hrun. destruct (initial_invariants mode l) as (Hc & Ht & _).
  destruct (run_invariants evs _ st' Hc Hrun) as (_ & H & _). by apply H.
Qed.

Lemma machine_has_two_states_witness :
  let l := mkLayout 2 (Some (mkParent 900 800 800 1200)) 900 900 700 true in
  let r := mkRect 0 0 in
  let evs :=
    [EraserClick; MouseDown r (mkMouse 10 10); MouseMove r (mkMouse 20 25);
     Resize (mkLayout 2 (Some (mkParent 900 800 800 1000)) 900 900 700 true);
     MouseMove r (mkMouse 30 35); MouseOut] in
  exists st',
    run (initial true l) evs = Some st'
    /\ isDrawing st' = false
    /\ two_states st'.
Proof.
  intros l r evs.
  destruct (run (initial true l) evs) as [st'|] eqn:Hrun;
    [|by vm_compute in Hrun].
  exists st'. split; [reflexivity|]. split.
  - vm_compute in Hrun. by injection Hrun as <-.
  - exact (machine_has_two_states true l evs st' Hrun).
Defined.

(** X9. In every state the overlay can reach after it is mounted, when no
    trigger key is recorded as held the active tool is the resting tool:
    only a key hold makes the two differ. *)
Theorem active_tool_is_resting_tool (mode : bool) (l : Layout)
    (evs : list Event) (st' : State) :
  run (initial mode l) evs = Some st' ->
  resting_when_released st'.
Proof.
  intros Hrun. destruct (initial_invariants mode l) as (Hc & _ & Hr).
  destruct (run_invariants evs _ st' Hc Hrun) as (_ & _ & H). by apply H.
Qed.

Lemma active_tool_is_resting_tool_witness :
  let l := mkLayout 2 (Some (mkParent 900 800 800 1200)) 900 900 700 true in
  let space := mkKey "Space" " " false in
  let evs := [EraserClick; KeyDown space; PencilClick; KeyUp space] in
  exists st',
    run (initial true l) evs = Some st'
    /\ isSpaceHeld st' = false
    /\ resting_when_released st'.
Proof.
  intros l space evs.
  destruct (run (initial true l) evs) as [st'|] eqn:Hrun;
    [|by vm_compute in Hrun].
  exists st'. split; [reflexivity|]. split.
  - vm_compute in Hrun. by injection Hrun as <-.
  - exact (active_tool_is_resting_tool true l evs st' Hrun).
Defined.

(** ** Keys *)

Lemma effects_quiet (prev st1 : State) (ev : Event) :
  (forall c l, ev <> ColorClick c l) ->
  isDrawing st1 = isDrawing prev ->
  effects prev ev st1
  = if Bool.eqb (isScribbleMode prev) (isScribbleMode st1) then st1
    else set_isTabPressed st1 false.
Proof.
  intros Hev Hd. unfold effects, saveAfterStroke, KeyBindings.rebind.
  rewrite Hd, Bool.eqb_reflx. destruct ev; try done. by destruct (Hev color l).
Qed.

(** X10. Pressing Tab and then S flips scribble mode and touches nothing
    else: the stroke in progress, the tools and the canvas are as before.
    The flip makes the key bindings start over with Tab forgotten, so a
    further S without a new Tab key-down changes nothing. *)
Theorem scribble_chord_flips_mode_once (st : State) (tab s : KeyboardEvent) :
  code tab = "Tab" ->
  code s = "KeyS" ->
  key s <> "Escape" ->
  exists st1,
    run st [KeyDown tab; KeyDown s] = Some st1
    /\ isScribbleMode st1 = negb (isScribbleMode st)
    /\ isTabPressed st1 = false
    /\ stroke_cells st1 = stroke_cells st
    /\ (isEraser st1, isSpaceHeld st1, backgroundState st1, strokeColor st1)
       = (isEraser st, isSpaceHeld st, backgroundState st, strokeColor st)
    /\ step st1 (KeyDown s) = Some st1.
Proof.
  intros Htab Hs Hkey. apply String.eqb_neq in Hkey.
  assert (forall e st0, code e = "Tab" \/ code e = "KeyS" ->
            ToolKeys.handleKeyDown e st0 = st0) as Htool.
  { intros e st0 Hc. unfold ToolKeys.handleKeyDown.
    by destruct Hc as [-> | ->]. }
  assert (forall st0,
            KeyBindings.handleKeyDown s st0
            = if isTabPressed st0
              then set_isScribbleMode st0 (negb (isScribbleMode st0))
              else st0) as Hbind.
  { intros st0. unfold KeyBindings.handleKeyDown. rewrite Hs, Hkey. cbn.
    by destruct (isTabPressed st0). }
  set (st1 := set_isTabPressed (set_isScribbleMode st (negb (isScribbleMode st)))
                false).
  assert (step st (KeyDown tab) = Some (set_isTabPressed st true)) as H1.
  { unfold step. cbn [dispatch]. rewrite Htool by auto.
    unfold KeyBindings.handleKeyDown. rewrite Htab. cbn.
    rewrite effects_quiet by done. cbn. by rewrite Bool.eqb_reflx. }
  assert (step (set_isTabPressed st true) (KeyDown s) = Some st1) as H2.
  { unfold step. cbn [dispatch]. rewrite Htool by auto. rewrite Hbind. cbn.
    rewrite effects_quiet by done. cbn. by destruct (isScribbleMode st). }
  exists st1. split; [cbn [run]; by rewrite H1, H2|].
  repeat split.
  unfold step. cbn [dispatch]. rewrite Htool by auto. rewrite Hbind. cbn.
  rewrite effects_quiet by done. by rewrite Bool.eqb_reflx.
Qed.

Lemma scribble_chord_flips_mode_once_witness :
  let l := mkLayout 1 (Some (mkParent 900 800 800 1200)) 900 900 700 true in
  let st := initial false l in
  let tab := mkKey "Tab" "Tab" false in
  let s := mkKey "KeyS" "s" false in
  exists st1,
    run st [KeyDown tab; KeyDown s] = Some st1
    /\ isScribbleMode st1 = true
    /\ isTabPressed st1 = false
    /\ stroke_cells st1 = stroke_cells st
    /\ (isEraser st1, isSpaceHeld st1, backgroundState st1, strokeColor st1)
       = (isEraser st, isSpaceHeld st, backgroundState st, strokeColor st)
    /\ step st1 (KeyDown s) = Some st1.
Proof.
  intros l st tab s.
  assert (key s <> "Escape") as Hk by discriminate.
  exact (scribble_chord_flips_mode_once st tab s eq_refl eq_refl Hk).
Defined.

(** X11. Outside scribble mode the scribble keys are inert: no key-down
    other than Tab and the chord's S, and no key-up other than Tab's,
    changes anything; in particular space, E and Escape do nothing. *)
Theorem keys_inert_when_off (st : State) (e : KeyboardEvent) :
  isScribbleMode st = false ->
  code e <> "Tab" ->
  (isTabPressed st = false \/ code e <> "KeyS") ->
  step st (KeyDown e) = Some st /\ step st (KeyUp e) = Some st.
Proof.
  intros Hmode Htab%String.eqb_neq Hs.
  assert (isTabPressed st && String.eqb (code e) "KeyS" = false) as Hchord.
  { destruct Hs as [-> | Hs%String.eqb_neq]; [done|].
    rewrite Hs. apply andb_false_r. }
  assert (ToolKeys.handleKeyDown e st = st) as Htd.
  { unfold ToolKeys.handleKeyDown. by rewrite Hmode, !andb_false_r. }
  assert (ToolKeys.handleKeyUp e st = st) as Htu.
  { unfold ToolKeys.handleKeyUp. by rewrite Hmode, !andb_false_r. }
  assert (KeyBindings.handleKeyDown e st = st) as Hkd.
  { unfold KeyBindings.handleKeyDown.
    by rewrite Htab, Hchord, Hmode, andb_false_r. }
  assert (KeyBindings.handleKeyUp e st = st) as Hku.
  { unfold KeyBindings.handleKeyUp. by rewrite Htab. }
  unfold step. cbn [dispatch]. rewrite Htd, Htu, Hkd, Hku. cbn.
  unfold effects, saveAfterStroke, KeyBindings.rebind.
  by rewrite !Bool.eqb_reflx.
Qed.

Lemma keys_inert_when_off_witness :
  let l := mkLayout 1 (Some (mkParent 900 800 800 1200)) 900 900 700 true in
  let st := eraser_onClick (initial false l) in
  let space := mkKey "Space" " " false in
  isScribbleMode st = false
  /\ step st (KeyDown space) = Some st
  /\ step st (KeyUp space) = Some st.
Proof.
  intros l st space. split; [reflexivity|].
  assert (code space <> "Tab") as Ht by discriminate.
  exact (keys_inert_when_off st space eq_refl Ht (or_introl eq_refl)).
Defined.

(** ** Strokes in the style of the tool *)

Ltac close_surface :=
  unfold with_context, flags, surface, canvas_calls, painted, style_now,
    canvas_raster, canvas_style, tool_style, released, at_canvas;
  cbn; rewrite <- ?app_assoc; done.

Ltac open_context st :=
  match goal with
  | H : with_context st |- _ =>
      unfold with_context in H;
      destruct st as [? drawing eraser ? ? ? ? ? ? ? ? [[]|] ?]; [|done];
      cbn in *; subst
  end.

(** A stroke begins: pointer-down, or a move while a trigger key or the
    pointer is recorded as held and no stroke is in progress. *)
Lemma step_begin (st : State) (r : Rect) (e : MouseEvent) (ev : Event)
    (s : Style) :
  with_context st ->
  isScribbleMode st = true ->
  style_now st = Some s ->
  ev = MouseDown r e
  \/ (ev = MouseMove r e /\ isDrawing st = false
      /\ isSpaceHeld st || isMouseDown st = true) ->
  exists st',
    step st ev = Some st'
    /\ with_context st'
    /\ flags st'
       = (true, true, isEraser st, isSpaceHeld st, backgroundState st,
          strokeColor st, true, false, isTabPressed st)
    /\ surface st'
       = (canvas_calls st ++ [BeginPath; MoveTo (at_canvas (r, e)).1
                                           (at_canvas (r, e)).2],
          painted st,
          Some (tool_style (isEraser st) (strokeColor st) s))
    /\ lastDrawnState st' = lastDrawnState st.
Proof.
  intros Hctx Hmode Hs Hev. open_context st. injection Hs as <-.
  destruct Hev as [-> | (-> & Hd & Hheld)].
  - eexists. split; [reflexivity|].
    destruct eraser, drawing; close_surface.
  - cbn in *. subst. eexists. split.
    + unfold step. cbn. rewrite Hheld. cbn. reflexivity.
    + destruct eraser; close_surface.
Qed.

(** A stroke continues: a move while a stroke is in progress and a trigger
    key or the pointer is recorded as held. *)
Lemma step_continue (st : State) (r : Rect) (e : MouseEvent) (s : Style) :
  with_context st ->
  isScribbleMode st = true ->
  isDrawing st = true ->
  isSpaceHeld st || isMouseDown st = true ->
  style_now st = Some s ->
  exists st',
    step st (MouseMove r e) = Some st'
    /\ with_context st'
    /\ flags st'
       = (true, true, isEraser st, isSpaceHeld st, backgroundState st,
          strokeColor st, isMouseDown st, true, isTabPressed st)
    /\ surface st'
       = (canvas_calls st ++ [LineTo (at_canvas (r, e)).1 (at_canvas (r, e)).2;
                              Stroke],
          painted st ++ [s], Some s)
    /\ lastDrawnState st' = lastDrawnState st.
Proof.
  intros Hctx Hmode Hd Hheld Hs. open_context st. injection Hs as <-.
  eexists. split.
  - unfold step. cbn. rewrite Hheld. cbn. reflexivity.
  - close_surface.
Qed.

(** A move with nothing held and no stroke in progress only moves the
    cursor. *)
Lemma step_pass (st : State) (r : Rect) (e : MouseEvent) :
  isDrawing st = false ->
  isSpaceHeld st = false ->
  isMouseDown st = false ->
  exists st',
    step st (MouseMove r e) = Some st'
    /\ flags st' = flags st
    /\ canvasRef st' = canvasRef st
    /\ lastDrawnState st' = lastDrawnState st.
Proof.
  intros Hd Hs Hm.
  destruct st as [mode ? ? ? ? ? ? ? ? ? ? cref ?]. cbn in *. subst.
  eexists. split; [reflexivity|].
  destruct mode; [|done]. destruct cref; done.
Qed.

(** A stroke ends at pointer-up or when the pointer leaves the canvas. *)
Lemma step_end (st : State) (ev : Event) (s : Style) :
  with_context st ->
  isScribbleMode st = true ->
  isDrawing st = true ->
  style_now st = Some s ->
  ev = MouseUp \/ ev = MouseOut ->
  exists st',
    step st ev = Some st'
    /\ with_context st'
    /\ flags st'
       = (true, false, isEraser st, isSpaceHeld st, backgroundState st,
          strokeColor st, false, false, isTabPressed st)
    /\ surface st' = (canvas_calls st ++ [ClosePath], painted st, Some (released s))
    /\ lastDrawnState st' = lastDrawnState st.
Proof.
  intros Hctx Hmode Hd Hs Hev. open_context st. injection Hs as <-.
  destruct Hev as [-> | ->]; eexists; (split; [reflexivity|]); close_surface.
Qed.

(** ** Key steps *)

Lemma KeyBindings_keydown_other (k : KeyboardEvent) (st : State) :
  code k = "Space" \/ code k = "KeyE" ->
  key k <> "Escape" ->
  KeyBindings.handleKeyDown k st = st.
Proof.
  intros Hc Hk%String.eqb_neq. unfold KeyBindings.handleKeyDown.
  rewrite Hk. destruct Hc as [-> | ->]; cbn; by rewrite andb_false_r.
Qed.

Lemma KeyBindings_keyup_other (k : KeyboardEvent) (st : State) :
  code k = "Space" \/ code k = "KeyE" ->
  KeyBindings.handleKeyUp k st = st.
Proof.
  intros Hc. unfold KeyBindings.handleKeyUp. by destruct Hc as [-> | ->].
Qed.

Lemma ToolKeys_keydown_on (k : KeyboardEvent) (st : State) :
  isScribbleMode st = true ->
  code k = "Space" \/ code k = "KeyE" ->
  ToolKeys.handleKeyDown k st
  = set_isSpaceHeld (set_isEraser st (String.eqb (code k) "KeyE")) true.
Proof.
  intros Hm Hc. unfold ToolKeys.handleKeyDown. rewrite Hm.
  destruct st. by destruct Hc as [-> | ->].
Qed.

Lemma ToolKeys_keyup_on (k : KeyboardEvent) (st : State) :
  isScribbleMode st = true ->
  code k = "Space" \/ code k = "KeyE" ->
  ToolKeys.handleKeyUp k st
  = stopDrawing (set_isSpaceHeld (set_isEraser st (backgroundState st)) false).
Proof.
  intros Hm Hc. unfold ToolKeys.handleKeyUp. rewrite Hm.
  by destruct Hc as [-> | ->].
Qed.

(** A trigger key goes down in scribble mode. *)
Lemma step_trigger_down (st : State) (k : KeyboardEvent) :
  isScribbleMode st = true ->
  code k = "Space" \/ code k = "KeyE" ->
  key k <> "Escape" ->
  exists st',
    step st (KeyDown k) = Some st'
    /\ flags st'
       = (true, isDrawing st, String.eqb (code k) "KeyE", true,
          backgroundState st, strokeColor st, isMouseDown st,
          didDrawInStroke st, isTabPressed st)
    /\ canvasRef st' = canvasRef st
    /\ lastDrawnState st' = lastDrawnState st.
Proof.
  intros Hm Hc Hk. eexists. split.
  - unfold step. cbn [dispatch]. rewrite ToolKeys_keydown_on by done.
    rewrite KeyBindings_keydown_other by done. cbn [fmap option_fmap option_map].
    rewrite effects_quiet by done. cbn. rewrite Bool.eqb_reflx. reflexivity.
  - unfold flags. cbn. by rewrite Hm.
Qed.

(** A trigger key goes up in scribble mode while a stroke is in progress. *)
Lemma step_trigger_up_drawing (st : State) (k : KeyboardEvent) (s : Style) :
  with_context st ->
  isScribbleMode st = true ->
  isDrawing st = true ->
  style_now st = Some s ->
  code k = "Space" \/ code k = "KeyE" ->
  exists st',
    step st (KeyUp k) = Some st'
    /\ with_context st'
    /\ flags st'
       = (true, false, backgroundState st, false, backgroundState st,
          strokeColor st, false, false, isTabPressed st)
    /\ surface st' = (canvas_calls st ++ [ClosePath], painted st, Some (released s))
    /\ lastDrawnState st' = lastDrawnState st.
Proof.
  intros Hctx Hm Hd Hs Hc. eexists. split.
  - unfold step. cbn [dispatch]. rewrite ToolKeys_keyup_on by done.
    rewrite KeyBindings_keyup_other by done. reflexivity.
  - open_context st. injection Hs as <-. close_surface.
Qed.

(** ** Strokes, move by move *)

Lemma run_continue (ps : list (Rect * MouseEvent)) (st : State) (s : Style) :
  with_context st ->
  isScribbleMode st = true ->
  isDrawing st = true ->
  isMouseDown st = true ->
  style_now st = Some s ->
  exists st' drew,
    run st (moves ps) = Some st'
    /\ with_context st'
    /\ flags st'
       = (true, true, isEraser st, isSpaceHeld st, backgroundState st,
          strokeColor st, true, drew, isTabPressed st)
    /\ surface st'
       = (canvas_calls st ++ drag_calls ps,
          painted st ++ replicate (length ps) s, Some s)
    /\ lastDrawnState st' = lastDrawnState st.
Proof.
  revert st. induction ps as [|[r e] ps IH]; intros st Hctx Hm Hd Hmd Hs.
  { exists st, (didDrawInStroke st). split; [done|]. split; [done|].
    unfold flags, surface. rewrite Hm, Hd, Hmd, Hs, !app_nil_r. done. }
  destruct (step_continue st r e s Hctx Hm Hd) as (st1 & H1 & Hc1 & Hf1 & Hs1 & Hl1);
    [by rewrite Hmd, orb_true_r|done|].
  unfold flags in Hf1. injection Hf1 as F1 F2 F3 F4 F5 F6 F7 F8 F9.
  unfold surface in Hs1. injection Hs1 as S1 S2 S3.
  destruct (IH st1 Hc1 F1 F2 (eq_trans F7 Hmd) S3)
    as (st' & drew & Hrun & Hc' & Hf' & Hs' & Hl').
  exists st', drew. cbn [moves fmap list_fmap run fst snd]. rewrite H1.
  split; [exact Hrun|]. split; [exact Hc'|].
  rewrite Hf', Hs', F3, F4, F5, F6, F9, S1, S2, Hl', Hl1.
  repeat split. unfold drag_calls. rewrite bind_cons. cbn.
  by rewrite <- !app_assoc.
Qed.

Lemma run_pass (ps : list (Rect * MouseEvent)) (st : State) :
  isDrawing st = false ->
  isSpaceHeld st = false ->
  isMouseDown st = false ->
  exists st',
    run st (moves ps) = Some st'
    /\ flags st' = flags st
    /\ canvasRef st' = canvasRef st
    /\ lastDrawnState st' = lastDrawnState st.
Proof.
  revert st. induction ps as [|[r e] ps IH]; intros st Hd Hs Hm.
  { by exists st. }
  destruct (step_pass st r e Hd Hs Hm) as (st1 & H1 & Hf1 & Hc1 & Hl1).
  pose proof Hf1 as Hf. unfold flags in Hf.
  injection Hf as F1 F2 F3 F4 F5 F6 F7 F8 F9.
  destruct (IH st1) as (st' & Hrun & Hf' & Hc' & Hl'); [congruence..|].
  exists st'. cbn [moves fmap list_fmap run fst snd]. rewrite H1.
  split; [exact Hrun|]. by rewrite Hf', Hc', Hl'.
Qed.

Lemma surface_of_canvas (st st' : State) :
  canvasRef st' = canvasRef st -> surface st' = surface st.
Proof.
  intros H. unfold surface, canvas_calls, painted, canvas_raster, style_now.
  by rewrite H.
Qed.

Lemma with_context_of_canvas (st st' : State) :
  canvasRef st' = canvasRef st -> with_context st -> with_context st'.
Proof. unfold with_context. by intros ->. Qed.

Lemma ready_with_context (st : State) : ready st -> with_context st.
Proof.
  intros (_ & _ & c & Hc & Hctx). unfold with_context. by rewrite Hc.
Qed.

(** X13. A pointer gesture paints in the style of the tool that is active at
    pointer-down.  From the idle state with no trigger key held, a gesture
    (hovering moves, pointer-down, held moves, pointer-up) paints one stroke
    per held move, each with the eraser's style (destination-out, width 20,
    stroke style untouched) or the pencil's (source-over, width 2, the
    selected colour); after the pointer-up the context composites with
    source-over again, and the machine is idle. *)
Theorem gesture_paints_in_tool_style (st : State) (g : Gesture) (s : Style) :
  ready st ->
  idle st ->
  style_now st = Some s ->
  let ts := tool_style (isEraser st) (strokeColor st) s in
  exists st',
    run st (gesture_events g) = Some st'
    /\ surface st'
       = (canvas_calls st ++ gesture_calls g,
          painted st ++ replicate (length (dragged g)) ts,
          Some (released ts))
    /\ flags st'
       = (true, false, isEraser st, false, backgroundState st,
          strokeColor st, false, false, isTabPressed st)
    /\ lastDrawnState st' = lastDrawnState st.
Proof.
  intros Hr [Hd Hmd] Hs ts.
  pose proof (ready_with_context st Hr) as Hctx.
  destruct Hr as (Hm & Hsp & _).
  destruct (run_pass (hover g) st Hd Hsp Hmd) as (st1 & R1 & F1 & C1 & L1).
  pose proof (with_context_of_canvas st st1 C1 Hctx) as Hctx1.
  pose proof (surface_of_canvas st st1 C1) as S1.
  unfold flags in F1. injection F1 as A1 A2 A3 A4 A5 A6 A7 A8 A9.
  unfold surface in S1. injection S1 as B1 B2 B3.
  destruct (step_begin st1 (down g).1 (down g).2
              (MouseDown (down g).1 (down g).2) s Hctx1)
    as (st2 & R2 & Hctx2 & F2 & S2 & L2); [congruence|congruence|by left|].
  unfold flags in F2. injection F2 as D1 D2 D3 D4 D5 D6 D7 D8 D9.
  unfold surface in S2. injection S2 as E1 E2 E3.
  destruct (run_continue (dragged g) st2 _ Hctx2 D1 D2 D7 E3)
    as (st3 & drew & R3 & Hctx3 & F3 & S3 & L3).
  unfold flags in F3. injection F3 as G1 G2 G3 G4 G5 G6 G7 G8 G9.
  unfold surface in S3. injection S3 as H1 H2 H3.
  destruct (step_end st3 MouseUp _ Hctx3 G1 G2 H3)
    as (st4 & R4 & Hctx4 & F4 & S4 & L4); [by left|].
  exists st4. split.
  - unfold gesture_events. rewrite scribble_run_app, R1.
    cbn [mbind option_bind app run]. rewrite R2, scribble_run_app, R3.
    cbn [mbind option_bind run]. by rewrite R4.
  - rewrite F4, S4, L4, L3, L2, L1, H1, H2, E1, E2, B1, B2.
    rewrite G3, G4, G5, G6, G9, D3, D4, D5, D6, D9, A3, A4, A5, A6, A9, Hsp.
    unfold ts, gesture_calls, at_canvas. cbn [fst snd].
    by rewrite <- !app_assoc.
Qed.

Lemma gesture_paints_in_tool_style_witness :
  let l := mkLayout 2 (Some (mkParent 900 800 800 1200)) 900 900 700 true in
  let r := mkRect 0 40 in
  let st := eraser_onClick (initial true l) in
  let g := mkGesture [] (r, mkMouse 10 50)
             [(r, mkMouse 20 60); (r, mkMouse 30 80)] in
  ready st /\ idle st
  /\ style_now st = Some (SourceOver, 2%Z, "#5A5A5A")
  /\ exists st',
       run st (gesture_events g) = Some st'
       /\ painted st'
          = [(DestinationOut, 20%Z, "#5A5A5A"); (DestinationOut, 20%Z, "#5A5A5A")]
       /\ style_now st' = Some (SourceOver, 20%Z, "#5A5A5A").
Proof.
  intros l r st g.
  assert (ready st) as Hr.
  { split; [reflexivity|]. split; [reflexivity|]. eexists. by split. }
  assert (idle st) as Hi by (by split).
  split; [exact Hr|]. split; [exact Hi|]. split; [reflexivity|].
  destruct (gesture_paints_in_tool_style st g _ Hr Hi eq_refl)
    as (st' & Hrun & Hs & _).
  exists st'. split; [exact Hrun|].
  unfold surface in Hs. injection Hs as _ Hp Hn. by split.
Defined.

(** X14. Holding a trigger key draws without a pointer button.  In scribble
    mode, from the idle state: after space or E goes down, the first move
    over the canvas begins a path at that position, every further move
    paints one stroke (pencil style for space, eraser style for E, whatever
    the resting tool), and the key-up ends the stroke, restores the resting
    tool and leaves the machine idle. *)
Theorem key_hold_draws (st : State) (k : KeyboardEvent) (p : Rect * MouseEvent)
    (ps : list (Rect * MouseEvent)) (s : Style) :
  with_context st ->
  isScribbleMode st = true ->
  idle st ->
  style_now st = Some s ->
  code k = "Space" \/ code k = "KeyE" ->
  key k <> "Escape" ->
  let ts := tool_style (String.eqb (code k) "KeyE") (strokeColor st) s in
  exists st',
    run st (KeyDown k :: moves (p :: ps) ++ [KeyUp k]) = Some st'
    /\ surface st'
       = (canvas_calls st
          ++ [BeginPath; MoveTo (at_canvas p).1 (at_canvas p).2]
          ++ drag_calls ps ++ [ClosePath],
          painted st ++ replicate (length ps) ts,
          Some (released ts))
    /\ flags st'
       = (true, false, backgroundState st, false, backgroundState st,
          strokeColor st, false, false, isTabPressed st)
    /\ lastDrawnState st' = lastDrawnState st.
Proof.
  intros Hctx Hm [Hd Hmd] Hs Hc Hk ts.
  destruct (step_trigger_down st k Hm Hc Hk) as (st1 & R1 & F1 & C1 & L1).
  pose proof (with_context_of_canvas st st1 C1 Hctx) as Hctx1.
  pose proof (surface_of_canvas st st1 C1) as S1.
  unfold flags in F1. injection F1 as A1 A2 A3 A4 A5 A6 A7 A8 A9.
  unfold surface in S1. injection S1 as B1 B2 B3.
  destruct p as [r e].
  destruct (step_begin st1 r e (MouseMove r e) s Hctx1)
    as (st2 & R2 & Hctx2 & F2 & S2 & L2);
    [congruence|congruence|right; by rewrite A2, A4, Hd|].
  unfold flags in F2. injection F2 as D1 D2 D3 D4 D5 D6 D7 D8 D9.
  unfold surface in S2. injection S2 as E1 E2 E3.
  destruct (run_continue ps st2 _ Hctx2 D1 D2 D7 E3)
    as (st3 & drew & R3 & Hctx3 & F3 & S3 & L3).
  unfold flags in F3. injection F3 as G1 G2 G3 G4 G5 G6 G7 G8 G9.
  unfold surface in S3. injection S3 as H1 H2 H3.
  destruct (step_trigger_up_drawing st3 k _ Hctx3 G1 G2 H3 Hc)
    as (st4 & R4 & Hctx4 & F4 & S4 & L4).
  exists st4. split.
  - cbn [run moves fmap list_fmap app fst snd]. rewrite R1, R2.
    fold (moves ps). rewrite scribble_run_app, R3.
    cbn [mbind option_bind run]. by rewrite R4.
  - rewrite F4, S4, L4, L3, L2, L1, H1, H2, E1, E2, B1, B2.
    rewrite ?G5, ?G6, ?G9, ?D5, ?D6, ?D9, ?A3, ?A5, ?A6, ?A9.
    unfold ts. by rewrite <- !app_assoc.
Qed.

Lemma key_hold_draws_witness :
  let l := mkLayout 2 (Some (mkParent 900 800 800 1200)) 900 900 700 true in
  let r := mkRect 0 40 in
  let st := eraser_onClick (initial true l) in
  let space := mkKey "Space" " " false in
  with_context st /\ isScribbleMode st = true /\ idle st
  /\ exists st',
       run st (KeyDown space
               :: moves [(r, mkMouse 10 50); (r, mkMouse 20 60)]
               ++ [KeyUp space]) = Some st'
       /\ canvas_calls st'
          = [BeginPath; MoveTo 10 10; LineTo 20 20; Stroke; ClosePath]
       /\ painted st' = [(SourceOver, 2%Z, "#5A5A5A")]
       /\ isEraser st' = true.
Proof.
  intros l r st space.
  assert (with_context st) as Hctx by reflexivity.
  assert (idle st) as Hi by (split; reflexivity).
  assert (style_now st = Some (SourceOver, 2%Z, "#5A5A5A")) as Hs
      by (by vm_compute).
  assert (key space <> "Escape") as Hk by discriminate.
  split; [exact Hctx|]. split; [reflexivity|]. split; [exact Hi|].
  destruct (key_hold_draws st space (r, mkMouse 10 50) [(r, mkMouse 20 60)]
              (SourceOver, 2%Z, "#5A5A5A") Hctx eq_refl Hi Hs
              (or_introl eq_refl) Hk)
    as (st' & Hrun & Hsf & Hf & _).
  exists st'. split; [exact Hrun|].
  unfold surface in Hsf. injection Hsf as Hc Hp _.
  unfold flags in Hf. injection Hf as _ _ He _ _ _ _ _ _.
  rewrite Hc, Hp, He. split; [by vm_compute|]. split; by vm_compute.
Defined.

(** X15. Releasing a trigger key ends whatever stroke is in progress, also
    one that was begun with the pointer button: the path is closed, the
    machine is idle with the pointer no longer recorded as held, and the
    moves that follow paint nothing until the next pointer-down or key
    hold. *)
Theorem key_release_ends_any_stroke (st : State) (k : KeyboardEvent)
    (ps : list (Rect * MouseEvent)) (s : Style) :
  with_context st ->
  isScribbleMode st = true ->
  isDrawing st = true ->
  style_now st = Some s ->
  code k = "Space" \/ code k = "KeyE" ->
  exists st',
    run st (KeyUp k :: moves ps) = Some st'
    /\ surface st' = (canvas_calls st ++ [ClosePath], painted st, Some (released s))
    /\ flags st'
       = (true, false, backgroundState st, false, backgroundState st,
          strokeColor st, false, false, isTabPressed st)
    /\ lastDrawnState st' = lastDrawnState st.
Proof.
  intros Hctx Hm Hd Hs Hc.
  destruct (step_trigger_up_drawing st k s Hctx Hm Hd Hs Hc)
    as (st1 & R1 & Hctx1 & F1 & S1 & L1).
  pose proof F1 as F. unfold flags in F.
  injection F as A1 A2 A3 A4 A5 A6 A7 A8 A9.
  destruct (run_pass ps st1 A2 A4 A7) as (st' & R & F' & C' & L').
  exists st'. cbn [run]. rewrite R1. split; [exact R|].
  by rewrite (surface_of_canvas st1 st' C'), F', L', S1, F1, L1.
Qed.

Lemma key_release_ends_any_stroke_witness :
  let l := mkLayout 2 (Some (mkParent 900 800 800 1200)) 900 900 700 true in
  let r := mkRect 0 0 in
  let st := draw r (mkMouse 20 20)
              (startDrawing r (mkMouse 10 10) (initial true l)) in
  let e := mkKey "KeyE" "e" false in
  with_context st /\ isScribbleMode st = true /\ isDrawing st = true
  /\ isMouseDown st = true
  /\ exists st',
       run st (KeyUp e :: moves [(r, mkMouse 30 30); (r, mkMouse 40 40)])
       = Some st'
       /\ canvas_calls st'
          = [BeginPath; MoveTo 10 10; LineTo 20 20; Stroke; ClosePath]
       /\ isDrawing st' = false /\ isMouseDown st' = false.
Proof.
  intros l r st e.
  assert (with_context st) as Hctx by (by vm_compute).
  assert (isScribbleMode st = true) as Hm by (by vm_compute).
  assert (isDrawing st = true) as Hd by (by vm_compute).
  assert (style_now st = Some (SourceOver, 2%Z, "#5A5A5A")) as Hs
      by (by vm_compute).
  split; [exact Hctx|]. split; [exact Hm|]. split; [exact Hd|].
  split; [by vm_compute|].
  destruct (key_release_ends_any_stroke st e
              [(r, mkMouse 30 30); (r, mkMouse 40 40)]
              (SourceOver, 2%Z, "#5A5A5A") Hctx Hm Hd Hs (or_intror eq_refl))
    as (st' & Hrun & Hsf & Hf & _).
  exists st'. split; [exact Hrun|].
  unfold surface in Hsf. injection Hsf as Hc _ _.
  unfold flags in Hf. injection Hf as _ Hd' _ _ _ _ Hm' _ _.
  rewrite Hc. split; [by vm_compute|]. by split.
Defined.

End ScribbleFacts.
